(** * Health Track backend (backend/main.py): a shallow embedding

    The backend is a FastAPI application with three routes.  This file
    embeds the helper [ask_gemini] and the handlers [home], [analyze_text]
    and [analyze_file], together with the pieces of the Python runtime they
    lean on (str.strip, str.lower, str.startswith / endswith,
    bytes.decode("utf-8", errors="replace"), json.loads, dict.get), and
    proves the properties of the routes that its specification states.

    Python strings are sequences of Unicode code points, bytes objects are
    sequences of bytes, exceptions are explicit results, and every call
    that leaves the process (the generative model, the image decoder, the
    text recogniser) is recorded in a trace. *)

From Stdlib Require Import List NArith ZArith Lia Bool.
From Stdlib.Strings Require Import String Ascii Byte.
Import ListNotations.

Set Implicit Arguments.
Set Warnings "-register-all".

(** ** Python strings *)

Module PyStr.

(** A [str] is a sequence of code points. *)
Definition pystr := list N.

(** An ASCII literal of the source. *)
Definition py (s : string) : pystr :=
  map N_of_ascii (list_ascii_of_string s).

(** A literal of the source that holds double quotes, written here with
    single quotes in their place. *)
Definition pyq (s : string) : pystr :=
  map (fun c => if N.eqb c 39 then 34%N else c) (py s).

(** "\n" *)
Definition nl : pystr := [10%N].

Definition eqb (a b : pystr) : bool :=
  if list_eq_dec N.eq_dec a b then true else false.

(** Truth value of a string: the empty string is false. *)
Definition truthy (s : pystr) : bool :=
  match s with [] => false | _ :: _ => true end.

(** str.isspace on one code point (the table of the Unicode database that
    str.strip() uses when called without an argument). *)
Definition is_space (c : N) : bool :=
  ((9 <=? c) && (c <=? 13) || (28 <=? c) && (c <=? 32)
   || (c =? 133) || (c =? 160) || (c =? 5760)
   || (8192 <=? c) && (c <=? 8202)
   || (c =? 8232) || (c =? 8233) || (c =? 8239) || (c =? 8287)
   || (c =? 12288))%N.

Fixpoint lstrip (s : pystr) : pystr :=
  match s with
  | [] => []
  | c :: r => if is_space c then lstrip r else s
  end.

Definition rstrip (s : pystr) : pystr := rev (lstrip (rev s)).

(** str.strip(): drop the whitespace at both ends. *)
Definition strip (s : pystr) : pystr := rstrip (lstrip s).

(** The string is empty or holds whitespace only. *)
Definition blank (s : pystr) : bool := forallb is_space s.

Fixpoint startswith (s prefix : pystr) {struct prefix} : bool :=
  match prefix, s with
  | [], _ => true
  | _ :: _, [] => false
  | p :: ps, c :: cs => N.eqb p c && startswith cs ps
  end.

Definition endswith (s suffix : pystr) : bool :=
  startswith (rev s) (rev suffix).

(** str.endswith with a tuple of suffixes. *)
Definition endswith_any (s : pystr) (suffixes : list pystr) : bool :=
  existsb (endswith s) suffixes.

(** [sub] occurs in [s]. *)
Definition contains (s sub : pystr) : Prop :=
  exists before after, s = before ++ sub ++ after.

(** *** str.lower()

    Every code point is replaced by its full lower-case mapping, except
    the capital sigma, whose mapping depends on its position in the word.
    The mapping of the ASCII range is written out; the rest of the Unicode
    database is a parameter. *)
Record CaseTables := {
  unicode_lower_full : N -> list N;
  final_sigma : pystr -> nat -> bool
}.

Definition ascii_lower (c : N) : N :=
  if ((65 <=? c) && (c <=? 90))%N then (c + 32)%N else c.

Definition lower_at (ct : CaseTables) (s : pystr) (i : nat) (c : N)
  : list N :=
  if (c =? 931)%N then
    [if final_sigma ct s i then 962%N else 963%N]
  else if (c <? 128)%N then [ascii_lower c]
  else unicode_lower_full ct c.

Fixpoint lower_from (ct : CaseTables) (s : pystr) (i : nat) (rest : pystr)
  : pystr :=
  match rest with
  | [] => []
  | c :: r => lower_at ct s i c ++ lower_from ct s (S i) r
  end.

Definition lower (ct : CaseTables) (s : pystr) : pystr :=
  lower_from ct s 0 s.

End PyStr.
Export PyStr.

(** ** Python values, exceptions and effects *)

(** The values a handler builds and json.loads returns.  A float is kept
    as the literal that denotes it; a dict keeps its insertion order. *)
Inductive pyval : Type :=
| PNone
| PBool (b : bool)
| PInt (z : Z)
| PFloat (literal : pystr)
| PStr (s : pystr)
| PList (items : list pyval)
| PDict (entries : list (pystr * pyval)).

(** An exception: whether it is an instance of [Exception] (KeyboardInterrupt,
    SystemExit and GeneratorExit are not), and its [str()]. *)
Record exn := MkExn {
  is_Exception : bool;
  exn_str : pystr
}.

Inductive outcome (A : Type) : Type :=
| Ret (a : A)
| Raise (e : exn).
Arguments Ret {A} a.
Arguments Raise {A} e.

(** What the google.generativeai client hands back: reading [.text] gives a
    string, or nothing, or raises (a blocked reply raises ValueError). *)
Record GenResponse := {
  text : outcome (option pystr)
}.

(** The calls that leave the process. *)
Inductive event : Type :=
| GenerateContent (full_prompt : pystr)
| ImageOpen (body : list byte)
| ImageToString.

(** The settings of the interpreter that json.loads runs into: how many
    JSON containers it can still nest before the recursion limit is hit
    (this depends on sys.getrecursionlimit() and on the depth of the stack
    at the call), and sys.get_int_max_str_digits(), the longest run of
    digits that int() converts (0 when the limit is off or the interpreter
    has none). *)
Record Interpreter := {
  recursion_headroom : nat;
  int_max_str_digits : nat
}.

(** The world outside the module during one request: the case tables and
    the settings of the interpreter, the result of the import probe of
    Pillow and pytesseract, and the behaviour of the three external calls.
    A handler calls each of them at most once per request, so what a call
    gives is a function of its argument; two requests are two runtimes. *)
Record Runtime := {
  case_tables : CaseTables;
  interpreter : Interpreter;
  OCR_AVAILABLE : bool;
  image : Type;
  generate_content : pystr -> outcome GenResponse;
  Image_open : list byte -> outcome image;
  image_to_string : image -> outcome pystr
}.

Module Eff.

(** A computation: its result and the external calls it made, in order. *)
Definition io (A : Type) : Type := (outcome A * list event)%type.

Definition ret {A} (a : A) : io A := (Ret a, []).

Definition raise {A} (e : exn) : io A := (Raise e, []).

Definition lift {A} (o : outcome A) : io A := (o, []).

Definition emit (ev : event) : io unit := (Ret tt, [ev]).

Definition bind {A B} (m : io A) (k : A -> io B) : io B :=
  match m with
  | (Ret a, t) => let (r, t') := k a in (r, t ++ t')
  | (Raise e, t) => (Raise e, t)
  end.

(** try: [m] except Exception as e: [h e] *)
Definition try_except {A} (m : io A) (h : exn -> io A) : io A :=
  match m with
  | (Ret a, t) => (Ret a, t)
  | (Raise e, t) =>
      if is_Exception e then let (r, t') := h e in (r, t ++ t')
      else (Raise e, t)
  end.

Definition result {A} (m : io A) : outcome A := fst m.
Definition calls {A} (m : io A) : list event := snd m.

End Eff.
Export Eff.

Notation "x <- m ;; k" := (bind m (fun x => k))
  (at level 61, m at next level, right associativity).
Notation "m ;;; k" := (bind m (fun _ => k))
  (at level 61, right associativity).

(** ** bytes.decode("utf-8", errors=...) *)

Module Utf8.

(** The error handlers of the codec that matter here. *)
Inductive errors := Strict | Replace.

(** In the middle of a sequence: the bits read so far, how many
    continuation bytes are still due, and the range the next one must be
    in (the second byte of a sequence is constrained by its lead byte). *)
Inductive state :=
| Idle
| Pending (acc : N) (due : nat) (lo hi : N).

Inductive start :=
| Single (c : N)
| Lead (acc : N) (due : nat) (lo hi : N)
| Invalid.

Definition start_byte (b : N) : start :=
  if (b <? 128)%N then Single b
  else if (b <? 194)%N then Invalid
  else if (b <? 224)%N then Lead (N.land b 31) 1 128 191
  else if (b =? 224)%N then Lead (N.land b 15) 2 160 191
  else if (b =? 237)%N then Lead (N.land b 15) 2 128 159
  else if (b <? 240)%N then Lead (N.land b 15) 2 128 191
  else if (b =? 240)%N then Lead (N.land b 7) 3 144 191
  else if (b <? 244)%N then Lead (N.land b 7) 3 128 191
  else if (b =? 244)%N then Lead (N.land b 7) 3 128 143
  else Invalid.

(** U+FFFD, the replacement character. *)
Definition REPLACEMENT : N := 65533.

Definition UnicodeDecodeError : exn :=
  MkExn true (py "'utf-8' codec can't decode byte").

Definition push (c : N) (o : outcome pystr) : outcome pystr :=
  match o with
  | Ret s => Ret (c :: s)
  | Raise e => Raise e
  end.

(** An undecodable run was found; [rest] is the decoding of what follows it. *)
Definition on_error (h : errors) (rest : outcome pystr) : outcome pystr :=
  match h with
  | Strict => Raise UnicodeDecodeError
  | Replace => push REPLACEMENT rest
  end.

(** Byte [b] read at the start of a sequence. *)
Definition at_start (h : errors) (b : N) (idle : outcome pystr)
    (pending : state -> outcome pystr) : outcome pystr :=
  match start_byte b with
  | Single c => push c idle
  | Lead acc due lo hi => pending (Pending acc due lo hi)
  | Invalid => on_error h idle
  end.

Fixpoint decode_loop (h : errors) (st : state) (bs : list byte)
  : outcome pystr :=
  match bs with
  | [] =>
      match st with
      | Idle => Ret []
      | Pending _ _ _ _ => on_error h (Ret [])
      end
  | b :: r =>
      let n := Byte.to_N b in
      match st with
      | Idle =>
          at_start h n (decode_loop h Idle r) (fun st' => decode_loop h st' r)
      | Pending acc due lo hi =>
          if ((lo <=? n) && (n <=? hi))%N then
            let acc' := N.lor (N.shiftl acc 6) (N.land n 63) in
            match due with
            | S (S k) => decode_loop h (Pending acc' (S k) 128 191) r
            | _ => push acc' (decode_loop h Idle r)
            end
          else
            (* the run ends before [b], which starts afresh *)
            on_error h
              (at_start h n (decode_loop h Idle r)
                 (fun st' => decode_loop h st' r))
      end
  end.

Definition bytes_decode (h : errors) (body : list byte) : outcome pystr :=
  decode_loop h Idle body.

(** How the two handlers relate on one input: where "strict" decodes,
    "replace" gives the same string; where "strict" raises, "replace"
    gives a string that holds the replacement character. *)
Definition agrees (strict replace : outcome pystr) : Prop :=
  match strict with
  | Ret s => replace = Ret s
  | Raise _ => exists s, replace = Ret s /\ In REPLACEMENT s
  end.

End Utf8.

(** ** json.loads

    The decoder of the standard library on a [str]: the grammar of
    json.decoder and json.scanner in their default configuration (strict
    strings, [dict] objects, NaN and the infinities accepted), with the two
    ways in which the interpreter cuts it short: RecursionError on
    containers nested deeper than the stack allows, and ValueError on an
    integer with more digits than int() converts. *)

Module Json.

(** What a scan ends on: a value and the rest of the text, a syntax
    error (JSONDecodeError), an exception of the interpreter (RecursionError
    or ValueError), or the end of the fuel. *)
Inductive scan (A : Type) : Type :=
| Scanned (a : A) (rest : pystr)
| Malformed
| Refused (e : exn)
| OutOfFuel.
Arguments Scanned {A} a rest.
Arguments Malformed {A}.
Arguments Refused {A} e.
Arguments OutOfFuel {A}.

(** RecursionError, raised on entering a container ("object" or "array")
    when no headroom is left. *)
Definition RecursionError (container : string) : exn :=
  MkExn true (py "maximum recursion depth exceeded while decoding a JSON "
              ++ py container ++ py " from a unicode string").

(** ValueError of int() on too long a run of digits (message abridged). *)
Definition ValueError : exn :=
  MkExn true (py "Exceeds the limit for integer string conversion").

(** int() refuses a run of more than 640 digits that is longer than the
    limit, when there is a limit. *)
Definition too_many_digits (ip : Interpreter) (digits : pystr) : bool :=
  (640 <? List.length digits)
  && (0 <? int_max_str_digits ip)
  && (int_max_str_digits ip <? List.length digits).

(** WHITESPACE: space, tab, line feed, carriage return. *)
Definition is_ws (c : N) : bool :=
  ((c =? 32) || (c =? 9) || (c =? 10) || (c =? 13))%N.

Fixpoint skip_ws (s : pystr) : pystr :=
  match s with
  | [] => []
  | c :: r => if is_ws c then skip_ws r else s
  end.

Definition is_digit (c : N) : bool := ((48 <=? c) && (c <=? 57))%N.

Definition hex_digit (c : N) : option N :=
  if ((48 <=? c) && (c <=? 57))%N then Some (c - 48)%N
  else if ((97 <=? c) && (c <=? 102))%N then Some (c - 87)%N
  else if ((65 <=? c) && (c <=? 70))%N then Some (c - 55)%N
  else None.

(** The four hexadecimal digits of a \u escape. *)
Definition hex4 (a b c d : N) : option N :=
  match hex_digit a, hex_digit b, hex_digit c, hex_digit d with
  | Some x, Some y, Some z, Some w =>
      Some (N.lor (N.shiftl (N.lor (N.shiftl (N.lor (N.shiftl x 4) y) 4) z) 4) w)
  | _, _, _, _ => None
  end.

Definition is_high_surrogate (c : N) : bool :=
  ((55296 <=? c) && (c <=? 56319))%N.
Definition is_low_surrogate (c : N) : bool :=
  ((56320 <=? c) && (c <=? 57343))%N.
Definition join_surrogates (hi lo : N) : N :=
  (65536 + N.lor (N.shiftl (N.land hi 1023) 10) (N.land lo 1023))%N.

(** BACKSLASH: the one-letter escapes. *)
Definition simple_escape (c : N) : option N :=
  if (c =? 34)%N then Some 34%N        (* quote *)
  else if (c =? 92)%N then Some 92%N   (* backslash *)
  else if (c =? 47)%N then Some 47%N   (* slash *)
  else if (c =? 98)%N then Some 8%N    (* \b *)
  else if (c =? 102)%N then Some 12%N  (* \f *)
  else if (c =? 110)%N then Some 10%N  (* \n *)
  else if (c =? 114)%N then Some 13%N  (* \r *)
  else if (c =? 116)%N then Some 9%N   (* \t *)
  else None.

(** scanstring, after the opening quote; [acc] holds the characters read,
    last first. *)
Fixpoint scanstring (s : pystr) (acc : pystr) : scan pystr :=
  match s with
  | [] => Malformed                       (* unterminated string *)
  | c :: r =>
      if (c =? 34)%N then Scanned (rev acc) r
      else if (c =? 92)%N then
        match r with
        | [] => Malformed
        | e :: r1 =>
            if (e =? 117)%N then          (* \uXXXX *)
              match r1 with
              | a :: b :: c1 :: d :: r2 =>
                  match hex4 a b c1 d with
                  | None => Malformed
                  | Some u =>
                      match r2 with
                      | bs :: lu :: a' :: b' :: c' :: d' :: r3 =>
                          match hex4 a' b' c' d' with
                          | Some u2 =>
                              if is_high_surrogate u && (bs =? 92)%N
                                 && (lu =? 117)%N && is_low_surrogate u2
                              then scanstring r3 (join_surrogates u u2 :: acc)
                              else scanstring r2 (u :: acc)
                          | None => scanstring r2 (u :: acc)
                          end
                      | _ => scanstring r2 (u :: acc)
                      end
                  end
              | _ => Malformed
              end
            else
              match simple_escape e with
              | Some x => scanstring r1 (x :: acc)
              | None => Malformed
              end
        end
      else if (c <=? 31)%N then Malformed (* control character, strict *)
      else scanstring r (c :: acc)
  end.

(** The longest run of digits at the head of [s], and what follows it. *)
Fixpoint digits (s : pystr) : pystr * pystr :=
  match s with
  | c :: r => if is_digit c then let (d, t) := digits r in (c :: d, t)
              else ([], s)
  | [] => ([], [])
  end.

(** int() of a run of decimal digits. *)
Definition int_of_digits (d : pystr) : Z :=
  fold_left (fun z c => (10 * z + Z.of_N (c - 48))%Z) d 0%Z.

(** The integer part of a number: 0, or a run starting with 1-9. *)
Definition int_part (s : pystr) : option (pystr * pystr) :=
  match s with
  | c :: r =>
      if (c =? 48)%N then Some ([c], r)
      else if is_digit c then let (d, t) := digits r in Some (c :: d, t)
      else None
  | [] => None
  end.

(** \.[0-9]+ at the head of [s], if it is there. *)
Definition frac_part (s : pystr) : pystr * pystr :=
  match s with
  | c :: r =>
      if (c =? 46)%N then
        match digits r with
        | ([], _) => ([], s)
        | (d, t) => (c :: d, t)
        end
      else ([], s)
  | [] => ([], s)
  end.

(** [eE][-+]?[0-9]+ at the head of [s], if it is there. *)
Definition exp_part (s : pystr) : pystr * pystr :=
  match s with
  | c :: r =>
      if ((c =? 101) || (c =? 69))%N then
        match r with
        | sg :: r' =>
            if ((sg =? 45) || (sg =? 43))%N then
              match digits r' with
              | ([], _) => ([], s)
              | (d, t) => (c :: sg :: d, t)
              end
            else
              match digits r with
              | ([], _) => ([], s)
              | (d, t) => (c :: d, t)
              end
        | [] => ([], s)
        end
      else ([], s)
  | [] => ([], s)
  end.

(** NUMBER_RE at the head of [s]; an integer goes through int(), a number
    with a fraction or an exponent through float(). *)
Definition match_number (ip : Interpreter) (s : pystr) : scan pyval :=
  let (neg, s1) :=
    match s with
    | c :: r => if (c =? 45)%N then (true, r) else (false, s)
    | [] => (false, s)
    end in
  match int_part s1 with
  | None => Malformed
  | Some (i, s2) =>
      let (f, s3) := frac_part s2 in
      let (e, s4) := exp_part s3 in
      match f, e with
      | [], [] =>
          if too_many_digits ip i then Refused ValueError
          else
            Scanned
              (PInt (if neg then - int_of_digits i else int_of_digits i)%Z)
              s4
      | _, _ =>
          Scanned (PFloat ((if neg then [45%N] else []) ++ i ++ f ++ e)) s4
      end
  end.

(** dict[key] = value *)
Fixpoint dict_set (d : list (pystr * pyval)) (k : pystr) (v : pyval)
  : list (pystr * pyval) :=
  match d with
  | [] => [(k, v)]
  | (k', v') :: r =>
      if PyStr.eqb k' k then (k', v) :: r else (k', v') :: dict_set r k v
  end.

(** dict lookup *)
Fixpoint dict_find (d : list (pystr * pyval)) (k : pystr) : option pyval :=
  match d with
  | [] => None
  | (k', v') :: r => if PyStr.eqb k' k then Some v' else dict_find r k
  end.

Definition literal (word : string) (v : pyval) (s : pystr)
    (otherwise : scan pyval) : scan pyval :=
  if startswith s (py word)
  then Scanned v (skipn (List.length (py word)) s)
  else otherwise.

(** scan_once, and the loops of JSONArray and JSONObject.  [depth] is the
    number of containers that can still be entered: the scanner enters
    one at an opening brace or bracket, before it looks at what follows. *)
Fixpoint scan_once (ip : Interpreter) (fuel depth : nat) (s : pystr)
    {struct fuel} : scan pyval :=
  match fuel with
  | O => OutOfFuel
  | S f =>
      match s with
      | [] => Malformed                   (* Expecting value *)
      | c :: r =>
          if (c =? 34)%N then             (* a string *)
            match scanstring r [] with
            | Scanned str r' => Scanned (PStr str) r'
            | Malformed => Malformed
            | Refused e => Refused e
            | OutOfFuel => OutOfFuel
            end
          else if (c =? 123)%N then       (* { *)
            match depth with
            | O => Refused (RecursionError "object")
            | S inner =>
                match skip_ws r with
                | c' :: r' =>
                    if (c' =? 125)%N then Scanned (PDict []) r'
                    else parse_object ip f inner (c' :: r') []
                | [] => Malformed
                end
            end
          else if (c =? 91)%N then        (* [ *)
            match depth with
            | O => Refused (RecursionError "array")
            | S inner =>
                match skip_ws r with
                | c' :: r' =>
                    if (c' =? 93)%N then Scanned (PList []) r'
                    else parse_array ip f inner (c' :: r') []
                | [] => Malformed
                end
            end
          else
            literal "null" PNone s
            (literal "true" (PBool true) s
            (literal "false" (PBool false) s
            (literal "NaN" (PFloat (py "NaN")) s
            (literal "Infinity" (PFloat (py "Infinity")) s
            (literal "-Infinity" (PFloat (py "-Infinity")) s
            (match_number ip s))))))
      end
  end

with parse_array (ip : Interpreter) (fuel depth : nat) (s : pystr)
    (acc : list pyval) {struct fuel} : scan pyval :=
  match fuel with
  | O => OutOfFuel
  | S f =>
      match scan_once ip f depth s with
      | Scanned v r =>
          match skip_ws r with
          | c :: r' =>
              if (c =? 93)%N then Scanned (PList (rev (v :: acc))) r'
              else if (c =? 44)%N
              then parse_array ip f depth (skip_ws r') (v :: acc)
              else Malformed              (* Expecting ',' delimiter *)
          | [] => Malformed
          end
      | Malformed => Malformed
      | Refused e => Refused e
      | OutOfFuel => OutOfFuel
      end
  end

with parse_object (ip : Interpreter) (fuel depth : nat) (s : pystr)
    (d : list (pystr * pyval)) {struct fuel} : scan pyval :=
  match fuel with
  | O => OutOfFuel
  | S f =>
      match s with
      | q :: r =>
          if (q =? 34)%N then
            match scanstring r [] with
            | Scanned key r1 =>
                match skip_ws r1 with
                | colon :: r2 =>
                    if (colon =? 58)%N then
                      match scan_once ip f depth (skip_ws r2) with
                      | Scanned v r3 =>
                          let d' := dict_set d key v in
                          match skip_ws r3 with
                          | c :: r4 =>
                              if (c =? 125)%N then Scanned (PDict d') r4
                              else if (c =? 44)%N
                              then parse_object ip f depth (skip_ws r4) d'
                              else Malformed
                          | [] => Malformed
                          end
                      | Malformed => Malformed
                      | Refused e => Refused e
                      | OutOfFuel => OutOfFuel
                      end
                    else Malformed        (* Expecting ':' delimiter *)
                | [] => Malformed
                end
            | Malformed => Malformed
            | Refused e => Refused e
            | OutOfFuel => OutOfFuel
            end
          else Malformed                  (* Expecting property name *)
      | [] => Malformed
      end
  end.

Definition JSONDecodeError : exn := MkExn true (py "Expecting value").

(** Fuel that the scanner cannot exhaust on [s]. *)
Definition enough (s : pystr) : nat := 2 * List.length s + 2.

(** json.loads(s) under the settings [ip] of the interpreter. *)
Definition json_loads (ip : Interpreter) (s : pystr) : outcome pyval :=
  if startswith s [65279%N] then Raise JSONDecodeError   (* UTF-8 BOM *)
  else
    match scan_once ip (enough s) (recursion_headroom ip) (skip_ws s) with
    | Scanned v r =>
        match skip_ws r with
        | [] => Ret v
        | _ :: _ => Raise JSONDecodeError                (* Extra data *)
        end
    | Malformed => Raise JSONDecodeError
    | Refused e => Raise e
    | OutOfFuel => Raise JSONDecodeError
    end.

End Json.

(** ** The application

    The handlers of main.py.  Calls to the logger write to the log only
    and leave the responses alone; they are not part of the embedding. *)

Module App.
Import Utf8 Json.

(** AnalyzeRequest *)
Record AnalyzeRequest := {
  symptom : pystr
}.

(** The parts of an UploadFile that the handler reads; [body] is what
    [await file.read()] returns. *)
Record UploadFile := {
  filename : pystr;
  content_type : option pystr;
  body : list byte
}.

(** type(v).__name__ *)
Definition type_name (v : pyval) : pystr :=
  match v with
  | PNone => py "NoneType"
  | PBool _ => py "bool"
  | PInt _ => py "int"
  | PFloat _ => py "float"
  | PStr _ => py "str"
  | PList _ => py "list"
  | PDict _ => py "dict"
  end.

Definition AttributeError (type attr : pystr) : exn :=
  MkExn true (py "'" ++ type ++ py "' object has no attribute '" ++ attr
              ++ py "'").

(** parsed.get(key, default): only a dict has [get]. *)
Definition py_get (parsed : pyval) (key : pystr) (default : pyval)
  : outcome pyval :=
  match parsed with
  | PDict d =>
      Ret (match dict_find d key with Some v => v | None => default end)
  | _ => Raise (AttributeError (type_name parsed) (py "get"))
  end.

(** [x or ""] for an optional string *)
Definition or_empty (x : option pystr) : pystr :=
  match x with
  | Some s => s
  | None => []
  end.

(** [x or default] for an optional string: None and "" are both false. *)
Definition or_default (x : option pystr) (default : pystr) : pystr :=
  match x with
  | Some s => if truthy s then s else default
  | None => default
  end.

(** Truth value of what [response.text] gave. *)
Definition truthy_text (t : option pystr) : bool :=
  match t with
  | Some s => truthy s
  | None => false
  end.

(** [t.strip()] *)
Definition text_strip (t : option pystr) : outcome pystr :=
  match t with
  | Some s => Ret (strip s)
  | None => Raise (AttributeError (py "NoneType") (py "strip"))
  end.

(** {"error": msg} *)
Definition error_response (msg : string) : pyval :=
  PDict [(py "error", PStr (py msg))].

Definition DEFAULT_SYSTEM : pystr :=
  py "You are a helpful, cautious medical assistant. "
  ++ py "Provide non-diagnostic advice, clearly indicate if the user should seek medical care, "
  ++ py "and suggest follow-up steps and specialist types.".

Definition NO_RESPONSE : pystr := py "[No response]".
Definition GEMINI_ERROR : pystr := py "[Gemini error] ".

Definition EMPTY_SYMPTOM : pyval :=
  PDict [(py "result",
          PStr (py "Please provide a non-empty symptom description."))].

Definition OCR_FAILED : pyval :=
  error_response "OCR failed on the uploaded image.".
Definition OCR_UNAVAILABLE : pyval :=
  error_response "OCR is not available. Install Pillow and pytesseract.".
Definition PDF_REJECTED : pyval :=
  error_response "PDF parsing not enabled. Please convert PDF to text or image.".
Definition UNSUPPORTED : pyval :=
  error_response "Unsupported file type. Send text or image files.".
Definition NO_TEXT : pyval :=
  error_response "No text could be extracted from the file.".

Definition symptom_prompt (symptom : pystr) : pystr :=
  py "User symptom description:" ++ nl ++ nl ++ symptom ++ nl ++ nl
  ++ py "Please provide:" ++ nl
  ++ py "1) Short summary of likely causes (2" ++ [8211%N]
  ++ py "4 bullet points)." ++ nl
  ++ py "2) Urgency level (e.g., 'seek immediate care', 'see doctor within 48 hours', 'self-care ok')." ++ nl
  ++ py "3) Practical next steps (3 bullets) and what specialist to consult if needed." ++ nl
  ++ py "4) List any red-flag symptoms that should prompt immediate emergency care." ++ nl
  ++ py "Be concise and avoid giving definitive medical diagnoses. Use plain language.".

Definition report_prompt (extracted_text : pystr) : pystr :=
  py "Here is the extracted text from a lab report or prescription:"
  ++ nl ++ nl ++ extracted_text ++ nl ++ nl
  ++ py "1) Extract key health metrics (name, value, unit, normal-range if present). "
  ++ py "Respond as a JSON object with a top-level key 'metrics' (list of objects with name, value, unit, range, normal boolean). " ++ nl
  ++ py "2) Provide a concise diagnosis summary and recommendations under key 'diagnosis'. " ++ nl ++ nl
  ++ py "Return only JSON with keys: metrics and diagnosis.".

Section Handlers.

Variable rt : Runtime.

(** model.generate_content(full_prompt) *)
Definition model_generate_content (full_prompt : pystr) : io GenResponse :=
  emit (GenerateContent full_prompt) ;;;
  lift (generate_content rt full_prompt).

(** Image.open(BytesIO(body)) *)
Definition PIL_Image_open (body : list byte) : io (image rt) :=
  emit (ImageOpen body) ;;;
  lift (Image_open rt body).

(** pytesseract.image_to_string(image) *)
Definition pytesseract_image_to_string (img : image rt) : io pystr :=
  emit ImageToString ;;;
  lift (image_to_string rt img).

(** ask_gemini(prompt, system=None) *)
Definition ask_gemini (prompt : pystr) (system : option pystr) : io pystr :=
  try_except
    (let system_prompt := or_default system DEFAULT_SYSTEM in
     let full_prompt :=
       system_prompt ++ nl ++ nl ++ py "User input:" ++ nl ++ prompt in
     response <- model_generate_content full_prompt ;;
     t <- lift (text response) ;;
     if truthy_text t then
       t' <- lift (text response) ;;
       lift (text_strip t')
     else ret NO_RESPONSE)
    (fun e => ret (GEMINI_ERROR ++ exn_str e)).

(** GET / *)
Definition home : io pyval :=
  ret (PDict [(py "message",
               PStr ([9989%N] ++ py " FastAPI + Gemini backend is running!"))]).

(** POST /analyze *)
Definition analyze_text (req : AnalyzeRequest) : io pyval :=
  let symptom := strip (symptom req) in
  if negb (truthy symptom) then ret EMPTY_SYMPTOM
  else
    let prompt := symptom_prompt symptom in
    answer <- ask_gemini prompt None ;;
    ret (PDict [(py "result", PStr answer)]).

(** The try / except around json.loads: the pair (metrics, diagnosis_text). *)
Definition parse_reply (ai_response : pystr) : io (pyval * pyval) :=
  try_except
    (parsed <- lift (json_loads (interpreter rt) ai_response) ;;
     metrics <- lift (py_get parsed (py "metrics") (PList [])) ;;
     diagnosis_text <- lift (py_get parsed (py "diagnosis") (PStr [])) ;;
     ret (metrics, diagnosis_text))
    (fun _ => ret (PList [], PStr ai_response)).

(** POST /analyze-file, from the emptiness check on: what the handler does
    with the text it extracted. *)
Definition analyze_extracted (extracted_text : pystr) : io pyval :=
  if negb (truthy (strip extracted_text)) then ret NO_TEXT
  else
    let prompt := report_prompt extracted_text in
    ai_response <- ask_gemini prompt None ;;
    p <- parse_reply ai_response ;;
    ret (PDict [(py "metrics", fst p); (py "diagnosis", snd p)]).

(** The OCR of the image branch: the text, or the response that reports
    its failure. *)
Definition run_ocr (body : list byte) : io (pystr + pyval) :=
  try_except
    (img <- PIL_Image_open body ;;
     extracted_text <- pytesseract_image_to_string img ;;
     ret (inl extracted_text))
    (fun _ => ret (inr OCR_FAILED)).

Definition is_text_file (content_type filename : pystr) : bool :=
  startswith content_type (py "text/")
  || endswith (lower (case_tables rt) filename) (py ".txt").

Definition is_image_file (content_type filename : pystr) : bool :=
  startswith content_type (py "image/")
  || endswith_any (lower (case_tables rt) filename)
       [py ".png"; py ".jpg"; py ".jpeg"].

Definition is_pdf_file (filename : pystr) : bool :=
  endswith (lower (case_tables rt) filename) (py ".pdf").

(** POST /analyze-file *)
Definition analyze_file (file : UploadFile) : io pyval :=
  let filename := filename file in
  let content_type := or_empty (content_type file) in
  let body := body file in
  if is_text_file content_type filename then
    extracted_text <- lift (bytes_decode Replace body) ;;
    analyze_extracted extracted_text
  else if is_image_file content_type filename then
    if OCR_AVAILABLE rt then
      r <- run_ocr body ;;
      match r with
      | inl extracted_text => analyze_extracted extracted_text
      | inr response => ret response
      end
    else ret OCR_UNAVAILABLE
  else if is_pdf_file filename then ret PDF_REJECTED
  else ret UNSUPPORTED.

(** The classification chain of [analyze_file] on its own: the text the
    handler goes on with when control reaches the emptiness check, or the
    response of the branch that returned early. *)
Definition extract_text (file : UploadFile) : io (pystr + pyval) :=
  let filename := filename file in
  let content_type := or_empty (content_type file) in
  let body := body file in
  if is_text_file content_type filename then
    extracted_text <- lift (bytes_decode Replace body) ;;
    ret (inl extracted_text)
  else if is_image_file content_type filename then
    if OCR_AVAILABLE rt then run_ocr body
    else ret (inr OCR_UNAVAILABLE)
  else if is_pdf_file filename then ret (inr PDF_REJECTED)
  else ret (inr UNSUPPORTED).

(** The prompt that [ask_gemini] hands to the model for [prompt]. *)
Definition full_prompt (prompt : pystr) (system : option pystr) : pystr :=
  or_default system DEFAULT_SYSTEM ++ nl ++ nl ++ py "User input:" ++ nl
  ++ prompt.

(** The exception that the external call raises on [full], if it raises:
    in [generate_content] itself or when the reply's text is read. *)
Definition external_failure (full : pystr) : option exn :=
  match generate_content rt full with
  | Raise e => Some e
  | Ret response =>
      match text response with
      | Raise e => Some e
      | Ret _ => None
      end
  end.

End Handlers.

(** *** Shapes of responses *)

Definition is_dict (v : pyval) : bool :=
  match v with PDict _ => true | _ => false end.



(** {"error": ...} *)
Definition is_error_response (v : pyval) : bool :=
  match v with
  | PDict [(k, _)] => PyStr.eqb k (py "error")
  | _ => false
  end.

(** {"metrics": metrics, "diagnosis": diagnosis} *)
Definition analysis_response (metrics diagnosis : pyval) : pyval :=
  PDict [(py "metrics", metrics); (py "diagnosis", diagnosis)].


(** json.loads fails on [reply], or gives a value without [get]. *)
Definition unparseable (rt : Runtime) (reply : pystr) : bool :=
  match json_loads (interpreter rt) reply with
  | Ret (PDict _) => false
  | _ => true
  end.

(** d.get(key, default) on the members of a dict *)
Definition get_or (members : list (pystr * pyval)) (key : string)
    (default : pyval) : pyval :=
  match dict_find members (py key) with
  | Some v => v
  | None => default
  end.

End App.

(** ** Sample runtimes and requests *)

Module Samples.
Import App.

(** Case tables that leave every code point outside ASCII alone.  The
    file names below are ASCII, on which [lower] does not consult them. *)
Definition plain_tables : CaseTables :=
  {| unicode_lower_full := fun c => [c];
     final_sigma := fun _ _ => false |}.

(** CPython as it comes: a recursion limit of 1000, of which the server
    and the handler have used a part, and at most 4300 digits for int(). *)
Definition CPYTHON : Interpreter :=
  {| recursion_headroom := 900; int_max_str_digits := 4300 |}.

(** A model that answers [reply] to every prompt; an image decoder and a
    recogniser that read the bytes of the image as its text. *)
Definition replying (reply : pystr) (ocr : bool) : Runtime :=
  {| case_tables := plain_tables;
     interpreter := CPYTHON;
     OCR_AVAILABLE := ocr;
     image := list byte;
     generate_content := fun _ => Ret {| text := Ret (Some reply) |};
     Image_open := fun b => Ret b;
     image_to_string := fun img => Ret (map Byte.to_N img) |}.

(** A model whose call raises [e]. *)
Definition failing (e : exn) : Runtime :=
  {| case_tables := plain_tables;
     interpreter := CPYTHON;
     OCR_AVAILABLE := true;
     image := list byte;
     generate_content := fun _ => Raise e;
     Image_open := fun b => Ret b;
     image_to_string := fun img => Ret (map Byte.to_N img) |}.

(** KeyboardInterrupt() derives from BaseException only; its str() is
    empty. *)
Definition KeyboardInterrupt : exn := MkExn false [].

(** An Exception as the client raises it when the quota is spent. *)
Definition ResourceExhausted : exn := MkExn true (py "429 Quota exceeded").

Definition upload (name : string) (ctype : option string) (content : string)
  : UploadFile :=
  {| filename := py name;
     content_type := option_map py ctype;
     body := list_byte_of_string content |}.

Definition GLUCOSE_REPLY : pystr :=
  pyq "{'metrics': [{'name':'glucose','value':95,'unit':'mg/dL','range':'70-100','normal':true}], 'diagnosis':'normal'}".

(** A JSON object whose metrics are 1000 arrays, one inside the other. *)
Definition DEEP_REPLY : pystr :=
  pyq "{'metrics': " ++ repeat 91%N 1000 ++ repeat 93%N 1000 ++ py "}".

(** A JSON object whose metrics is an integer of 4400 digits. *)
Definition LONG_INT_REPLY : pystr :=
  pyq "{'metrics': " ++ repeat 49%N 4400 ++ py "}".

Definition GLUCOSE_METRICS : pyval :=
  PList [PDict [(py "name", PStr (py "glucose"));
                (py "value", PInt 95);
                (py "unit", PStr (py "mg/dL"));
                (py "range", PStr (py "70-100"));
                (py "normal", PBool true)]].

End Samples.

(** ** Notions for the properties of the handlers *)

Module Obs.
Import App.

(** Whatever the external calls raise is an instance of Exception: the
    model call, the reading of its reply, the image decoder and the
    recogniser. *)
Definition raises_only_Exceptions (rt : Runtime) : Prop :=
  (forall p e, generate_content rt p = Raise e -> is_Exception e = true)
  /\ (forall p r e, generate_content rt p = Ret r ->
                    text r = Raise e -> is_Exception e = true)
  /\ (forall b e, Image_open rt b = Raise e -> is_Exception e = true)
  /\ (forall i e, image_to_string rt i = Raise e -> is_Exception e = true).

(** All bytes are ASCII. *)
Definition ascii_bytes (body : list byte) : bool :=
  forallb (fun b => (Byte.to_N b <? 128)%N) body.

(** The first character of [reply] that is not JSON whitespace is an
    opening brace. *)
Definition starts_object (reply : pystr) : bool :=
  match Json.skip_ws reply with
  | c :: _ => (c =? 123)%N
  | [] => false
  end.

(** The error responses of /analyze-file. *)
Definition FIXED_ERRORS : list pyval :=
  [OCR_FAILED; OCR_UNAVAILABLE; PDF_REJECTED; UNSUPPORTED; NO_TEXT].

(** The prompts of the model calls of a trace, in order. *)
Definition model_prompts (tr : list event) : list pystr :=
  flat_map (fun ev => match ev with
                      | GenerateContent p => [p]
                      | _ => []
                      end) tr.

(** The first and the last character of [s], if it has any, are not
    whitespace. *)
Definition trimmed (s : pystr) : Prop :=
  lstrip s = s /\ rstrip s = s.

(** A model whose reply has the text [t]; OCR is available and reads the
    bytes of the image as its text. *)
Definition answering (t : outcome (option pystr)) : Runtime :=
  {| case_tables := Samples.plain_tables;
     interpreter := Samples.CPYTHON;
     OCR_AVAILABLE := true;
     image := list byte;
     generate_content := fun _ => Ret {| text := t |};
     Image_open := fun b => Ret b;
     image_to_string := fun img => Ret (map Byte.to_N img) |}.

(** Pillow cannot open the upload: UnidentifiedImageError, an Exception. *)
Definition UnidentifiedImageError : exn :=
  MkExn true (py "cannot identify image file").

(** pytesseract cannot run the recogniser: TesseractNotFoundError, an
    Exception. *)
Definition TesseractNotFoundError : exn :=
  MkExn true (py "tesseract is not installed or it's not in your PATH").

(** A runtime with OCR whose image decoder gives [opened] and whose
    recogniser gives [read]. *)
Definition with_ocr (opened : outcome (list byte)) (read : outcome pystr)
  : Runtime :=
  {| case_tables := Samples.plain_tables;
     interpreter := Samples.CPYTHON;
     OCR_AVAILABLE := true;
     image := list byte;
     generate_content :=
       fun _ => Ret {| text := Ret (Some Samples.GLUCOSE_REPLY) |};
     Image_open := fun _ => opened;
     image_to_string := fun _ => read |}.

End Obs.

(** * Properties *)

(** ** Strings *)

Module PyStrFacts.

Lemma lstrip_nil_iff (s : pystr) : lstrip s = [] <-> blank s = true.
Proof.
  induction s as [|c r IH]; simpl.
  - split; reflexivity.
  - destruct (is_space c); simpl.
    + exact IH.
    + split; discriminate.
Qed.

Lemma blank_app (a b : pystr) : blank (a ++ b) = blank a && blank b.
Proof. apply forallb_app. Qed.

Lemma blank_rev (s : pystr) : blank (rev s) = blank s.
Proof.
  induction s as [|c r IH]; simpl; [reflexivity|].
  rewrite blank_app, IH. simpl. rewrite andb_true_r. apply andb_comm.
Qed.

(** What [lstrip] leaves is a suffix of the string that starts with a
    character that is not whitespace. *)
Lemma lstrip_blank_stable (s : pystr) : blank (lstrip s) = blank s.
Proof.
  induction s as [|c r IH]; simpl; [reflexivity|].
  destruct (is_space c) eqn:E; simpl; [exact IH | now rewrite E].
Qed.

Lemma strip_nil_iff (s : pystr) : strip s = [] <-> blank s = true.
Proof.
  unfold strip, rstrip. split; intro H.
  - assert (L : lstrip (rev (lstrip s)) = []).
    { destruct (lstrip (rev (lstrip s))) as [|x l]; [reflexivity|].
      simpl in H. now destruct (rev l). }
    apply lstrip_nil_iff in L. rewrite blank_rev, lstrip_blank_stable in L.
    exact L.
  - apply lstrip_nil_iff in H. rewrite H. reflexivity.
Qed.

(** The test [if not symptom] of the handlers: the stripped string is
    false exactly when the string is blank. *)
Lemma truthy_strip (s : pystr) : truthy (strip s) = negb (blank s).
Proof.
  destruct (blank s) eqn:B.
  - apply strip_nil_iff in B. now rewrite B.
  - destruct (strip s) eqn:E; [|reflexivity].
    apply strip_nil_iff in E. congruence.
Qed.

(** Stripping removes whitespace only: what it returns has none at either
    end. *)
Lemma lstrip_head (s : pystr) (c : N) (r : pystr) :
  lstrip s = c :: r -> is_space c = false.
Proof.
  induction s as [|x l IH]; simpl; [discriminate|].
  destruct (is_space x) eqn:E; [exact IH|].
  intros [= <- _]. exact E.
Qed.

Lemma lstrip_suffix (s : pystr) :
  exists ws, s = ws ++ lstrip s /\ blank ws = true.
Proof.
  induction s as [|x l [ws [E B]]]; simpl.
  - now exists [].
  - destruct (is_space x) eqn:S.
    + exists (x :: ws). simpl. rewrite S, B. split; [now f_equal | reflexivity].
    + now exists [].
Qed.

(** [strip s] is [s] without a blank prefix and a blank suffix. *)
Lemma strip_spec (s : pystr) :
  exists before after,
    s = before ++ strip s ++ after
    /\ blank before = true /\ blank after = true.
Proof.
  destruct (lstrip_suffix s) as [ws [E B]].
  destruct (lstrip_suffix (rev (lstrip s))) as [ws' [E' B']].
  exists ws, (rev ws'). unfold strip, rstrip.
  rewrite <- rev_app_distr, <- E', rev_involutive, blank_rev.
  now repeat split.
Qed.

Lemma startswith_app (prefix rest : pystr) :
  startswith (prefix ++ rest) prefix = true.
Proof.
  induction prefix as [|c r IH]; simpl; [reflexivity|].
  now rewrite N.eqb_refl.
Qed.

Lemma endswith_app (s suffix : pystr) : endswith (s ++ suffix) suffix = true.
Proof. unfold endswith. rewrite rev_app_distr. apply startswith_app. Qed.

Lemma startswith_inv (s prefix : pystr) :
  startswith s prefix = true -> exists rest, s = prefix ++ rest.
Proof.
  revert s. induction prefix as [|p ps IH]; intros s H.
  - now exists s.
  - destruct s as [|c cs]; simpl in H; [discriminate|].
    apply andb_prop in H. destruct H as [E H].
    apply N.eqb_eq in E. subst c.
    destruct (IH _ H) as [rest ->]. now exists rest.
Qed.

(** Two suffixes of one string whose last characters differ cannot both
    match. *)
Lemma endswith_last_differs (s a b : pystr) (x y : N) :
  x <> y ->
  endswith s (a ++ [x]) = true -> endswith s (b ++ [y]) = false.
Proof.
  unfold endswith. rewrite !rev_app_distr. simpl.
  intros D H. destruct (rev s) as [|c cs]; [discriminate|].
  apply andb_prop in H. destruct H as [E _]. apply N.eqb_eq in E. subst c.
  apply andb_false_iff. left. apply N.eqb_neq. congruence.
Qed.

(** On an ASCII string, [lower] does not look at the case tables. *)
Lemma lower_from_ascii (ct : CaseTables) (s : pystr) (i : nat) (r : pystr) :
  forallb (fun c => (c <? 128)%N) r = true ->
  lower_from ct s i r = map ascii_lower r.
Proof.
  revert i. induction r as [|c l IH]; intros i H; simpl; [reflexivity|].
  simpl in H. apply andb_prop in H. destruct H as [C H].
  unfold lower_at. rewrite C.
  assert ((c =? 931)%N = false) as ->.
  { apply N.eqb_neq. apply N.ltb_lt in C. lia. }
  simpl. now rewrite IH.
Qed.

Lemma lower_ascii (ct : CaseTables) (s : pystr) :
  forallb (fun c => (c <? 128)%N) s = true ->
  lower ct s = map ascii_lower s.
Proof. apply lower_from_ascii. Qed.

End PyStrFacts.

(** ** The effect monad *)

Module EffFacts.

Lemma bind_ret_l {A B} (a : A) (k : A -> io B) : bind (ret a) k = k a.
Proof. unfold bind, ret. now destruct (k a). Qed.

Lemma bind_ret_r {A} (m : io A) : bind m ret = m.
Proof.
  destruct m as [[a|e] t]; simpl; [|reflexivity].
  now rewrite app_nil_r.
Qed.

Lemma bind_assoc {A B C} (m : io A) (k : A -> io B) (h : B -> io C) :
  bind (bind m k) h = bind m (fun a => bind (k a) h).
Proof.
  destruct m as [[a|e] t]; simpl; [|reflexivity].
  destruct (k a) as [[b|e] t']; simpl; [|reflexivity].
  destruct (h b) as [r t'']. now rewrite app_assoc.
Qed.

Lemma bind_lift_ret {A B} (a : A) (k : A -> io B) :
  bind (lift (Ret a)) k = k a.
Proof. apply bind_ret_l. Qed.

Lemma bind_lift_raise {A B} (e : exn) (k : A -> io B) :
  bind (lift (Raise e)) k = (Raise e, []).
Proof. reflexivity. Qed.

(** Result and trace of a sequence whose first part returns. *)
Lemma bind_returns {A B} (m : io A) (k : A -> io B) (a : A) :
  result m = Ret a ->
  result (bind m k) = result (k a)
  /\ calls (bind m k) = calls m ++ calls (k a).
Proof.
  destruct m as [r t]. simpl. intros ->. simpl.
  now destruct (k a).
Qed.

Lemma bind_raises {A B} (m : io A) (k : A -> io B) (e : exn) :
  result m = Raise e ->
  bind m k = (Raise e, calls m).
Proof. destruct m as [r t]. simpl. now intros ->. Qed.

End EffFacts.

(** ** The UTF-8 decoder *)

Module Utf8Facts.
Import Utf8.

Lemma push_replace_total (c : N) (o : outcome pystr) :
  (exists s, o = Ret s) -> exists s, push c o = Ret s.
Proof. intros [s ->]. now exists (c :: s). Qed.

Lemma at_start_replace_total (b : N) (idle : outcome pystr)
    (pending : state -> outcome pystr) :
  (exists s, idle = Ret s) ->
  (forall st, exists s, pending st = Ret s) ->
  exists s, at_start Replace b idle pending = Ret s.
Proof.
  intros I P. unfold at_start.
  destruct (start_byte b); simpl; auto using push_replace_total.
Qed.

(** With the handler "replace" the decoder returns a string from every
    state and on every byte sequence. *)
Lemma decode_loop_replace_total (bs : list byte) :
  forall st, exists s, decode_loop Replace st bs = Ret s.
Proof.
  induction bs as [|b r IH]; intros st; simpl.
  - destruct st; simpl; eauto.
  - destruct st as [|acc due lo hi].
    + apply at_start_replace_total; auto.
    + destruct ((lo <=? Byte.to_N b) && (Byte.to_N b <=? hi))%N.
      * destruct due as [|[|k]]; auto using push_replace_total.
      * simpl. apply push_replace_total.
        apply at_start_replace_total; auto.
Qed.

Lemma agrees_push (c : N) (a b : outcome pystr) :
  agrees a b -> agrees (push c a) (push c b).
Proof.
  destruct a as [s|e]; simpl.
  - now intros ->.
  - intros [s [-> I]]. exists (c :: s). split; [reflexivity | now right].
Qed.

Lemma agrees_error (rest : outcome pystr) :
  (exists s, rest = Ret s) ->
  agrees (Raise UnicodeDecodeError) (on_error Replace rest).
Proof.
  intros [s ->]. simpl. exists (REPLACEMENT :: s).
  split; [reflexivity | now left].
Qed.

Lemma agrees_at_start (b : N) (i i' : outcome pystr)
    (p p' : state -> outcome pystr) :
  agrees i i' -> (forall st, agrees (p st) (p' st)) ->
  (exists s, i' = Ret s) ->
  agrees (at_start Strict b i p) (at_start Replace b i' p').
Proof.
  intros I P T. unfold at_start.
  destruct (start_byte b); auto using agrees_push, agrees_error.
Qed.

(** Where the strict decoder succeeds, "replace" gives the same string;
    where it fails, "replace" gives a string that holds U+FFFD. *)
Lemma decode_loop_agrees (bs : list byte) :
  forall st, agrees (decode_loop Strict st bs) (decode_loop Replace st bs).
Proof.
  induction bs as [|b r IH]; intros st; simpl.
  - destruct st; simpl; [reflexivity|].
    exists [REPLACEMENT]. split; [reflexivity | now left].
  - destruct st as [|acc due lo hi].
    + apply agrees_at_start; auto using decode_loop_replace_total.
    + destruct ((lo <=? Byte.to_N b) && (Byte.to_N b <=? hi))%N.
      * destruct due as [|[|k]]; auto using agrees_push.
      * apply agrees_error. apply at_start_replace_total;
          auto using decode_loop_replace_total.
Qed.

Lemma bytes_decode_replace_total (body : list byte) :
  exists s, bytes_decode Replace body = Ret s.
Proof. apply decode_loop_replace_total. Qed.

End Utf8Facts.

(** ** The JSON decoder *)

Module JsonFacts.
Import Json.

Lemma skip_ws_length (s : pystr) : List.length (skip_ws s) <= List.length s.
Proof.
  induction s as [|c r IH]; simpl; [lia|].
  destruct (is_ws c); simpl; lia.
Qed.

Ltac split_match H :=
  match type of H with
  | context [if ?b then _ else _] => destruct b eqn:?
  | context [match ?x with _ => _ end] => destruct x eqn:?
  end.

(** A string literal that scans leaves less than it was given, and the
    scan of a string literal needs no fuel. *)
Lemma scanstring_length (n : nat) :
  forall s acc k r,
    List.length s <= n -> scanstring s acc = Scanned k r ->
    List.length r < List.length s.
Proof.
  induction n as [|n IH]; intros s acc k r L H;
    (destruct s as [|c s]; cbn [scanstring List.length] in *;
     [discriminate|]); [lia|].
  repeat (split_match H; subst; cbn [List.length] in *; try discriminate);
    try (injection H as <- <-; lia);
    try (apply IH in H; cbn [List.length] in *; lia).
Qed.

Lemma scanstring_fuel (n : nat) :
  forall s acc,
    List.length s <= n -> scanstring s acc <> OutOfFuel.
Proof.
  induction n as [|n IH]; intros s acc L H;
    (destruct s as [|c s]; cbn [scanstring List.length] in *;
     [discriminate|]); [lia|].
  repeat (split_match H; subst; cbn [List.length] in *; try discriminate);
    try (apply IH in H; [exact H | cbn [List.length] in *; lia]).
Qed.

Lemma scanstring_refuses (n : nat) :
  forall s acc e,
    List.length s <= n -> scanstring s acc <> Refused e.
Proof.
  induction n as [|n IH]; intros s acc e L H;
    (destruct s as [|c s]; cbn [scanstring List.length] in *;
     [discriminate|]); [lia|].
  repeat (split_match H; subst; cbn [List.length] in *; try discriminate);
    try (apply IH in H; [exact H | cbn [List.length] in *; lia]).
Qed.

Lemma digits_length (s : pystr) :
  List.length (snd (digits s)) <= List.length s.
Proof.
  induction s as [|c r IH]; simpl; [lia|].
  destruct (is_digit c); simpl; [|lia].
  destruct (digits r). simpl in *. lia.
Qed.

Lemma int_part_length (s i r : pystr) :
  int_part s = Some (i, r) -> List.length r <= List.length s.
Proof.
  destruct s as [|c t]; simpl; [discriminate|].
  destruct (c =? 48)%N.
  - intros [= _ <-]. lia.
  - destruct (is_digit c); [|discriminate].
    pose proof (digits_length t) as D. destruct (digits t).
    intros [= _ <-]. simpl in D. lia.
Qed.

Lemma frac_part_length (s : pystr) :
  List.length (snd (frac_part s)) <= List.length s.
Proof.
  destruct s as [|c t]; simpl; [lia|].
  destruct (c =? 46)%N; simpl; [|lia].
  pose proof (digits_length t) as D.
  destruct (digits t) as [[|d ds] r]; simpl in *; lia.
Qed.

Lemma exp_part_length (s : pystr) :
  List.length (snd (exp_part s)) <= List.length s.
Proof.
  unfold exp_part.
  destruct s as [|c t]; cbn [snd List.length]; [lia|].
  destruct ((c =? 101) || (c =? 69))%N; cbn [snd List.length]; [|lia].
  destruct t as [|sg t']; cbn [snd List.length]; [lia|].
  destruct ((sg =? 45) || (sg =? 43))%N.
  - pose proof (digits_length t') as D.
    destruct (digits t') as [[|d ds] r]; cbn [snd List.length] in *; lia.
  - pose proof (digits_length (sg :: t')) as D.
    destruct (digits (sg :: t')) as [[|d ds] r];
      cbn [snd List.length] in *; lia.
Qed.

Lemma match_number_length
    (ip : Interpreter) (s : pystr) (v : pyval) (r : pystr) :
  match_number ip s = Scanned v r -> List.length r <= List.length s.
Proof.
  unfold match_number.
  set (p := match s with
            | c :: r0 => if (c =? 45)%N then (true, r0) else (false, s)
            | [] => (false, s)
            end).
  assert (P : List.length (snd p) <= List.length s).
  { subst p. destruct s as [|c t]; simpl; [lia|].
    destruct (c =? 45)%N; simpl; lia. }
  destruct p as [neg s1]. simpl in P.
  destruct (int_part s1) as [[i s2]|] eqn:I; [|discriminate].
  apply int_part_length in I.
  pose proof (frac_part_length s2) as F. destruct (frac_part s2) as [f s3].
  pose proof (exp_part_length s3) as E. destruct (exp_part s3) as [e s4].
  simpl in *.
  destruct f, e; try destruct (too_many_digits ip i);
    try discriminate; intros [= _ <-]; lia.
Qed.

Lemma match_number_fuel (ip : Interpreter) (s : pystr) :
  match_number ip s <> OutOfFuel.
Proof.
  unfold match_number.
  destruct (match s with
            | c :: r0 => if (c =? 45)%N then (true, r0) else (false, s)
            | [] => (false, s)
            end) as [neg s1].
  destruct (int_part s1) as [[i s2]|]; [|discriminate].
  destruct (frac_part s2) as [f s3]. destruct (exp_part s3) as [e s4].
  destruct f, e; try destruct (too_many_digits ip i); discriminate.
Qed.

Lemma literal_length (word : string) (v : pyval) (s : pystr)
    (otherwise : scan pyval) (v' : pyval) (r : pystr) :
  literal word v s otherwise = Scanned v' r ->
  (otherwise = Scanned v' r -> List.length r <= List.length s) ->
  List.length r <= List.length s.
Proof.
  unfold literal. destruct (startswith s (py word)); [|auto].
  intros [= _ <-] _. rewrite length_skipn. lia.
Qed.

Lemma literal_fuel (word : string) (v : pyval) (s : pystr)
    (otherwise : scan pyval) :
  literal word v s otherwise = OutOfFuel -> otherwise = OutOfFuel.
Proof. unfold literal. now destruct (startswith s (py word)). Qed.

#[local] Arguments literal : simpl never.
#[local] Arguments match_number : simpl never.
#[local] Arguments scanstring : simpl never.

(** What a successful scan leaves is no longer than what it was given. *)
Lemma scan_lengths (ip : Interpreter) (f : nat) :
  (forall depth s v r,
      scan_once ip f depth s = Scanned v r ->
      List.length r <= List.length s)
  /\ (forall depth s acc v r,
      parse_array ip f depth s acc = Scanned v r ->
      List.length r <= List.length s)
  /\ (forall depth s d v r,
      parse_object ip f depth s d = Scanned v r ->
      List.length r <= List.length s).
Proof.
  induction f as [|f [IHs [IHa IHo]]];
    [repeat split; intros; discriminate|].
  repeat split.
  - intros depth s v r H. simpl in H. destruct s as [|c t]; [discriminate|].
    destruct (c =? 34)%N.
    { destruct (scanstring t []) eqn:E; try discriminate.
      injection H as _ <-.
      apply scanstring_length with (n := List.length t) in E; simpl; lia. }
    destruct (c =? 123)%N.
    { destruct depth as [|inner]; [discriminate|].
      pose proof (skip_ws_length t) as W.
      destruct (skip_ws t) as [|c' r']; [discriminate|].
      destruct (c' =? 125)%N.
      - injection H as _ <-. simpl in *. lia.
      - apply IHo in H. simpl in *. lia. }
    destruct (c =? 91)%N.
    { destruct depth as [|inner]; [discriminate|].
      pose proof (skip_ws_length t) as W.
      destruct (skip_ws t) as [|c' r']; [discriminate|].
      destruct (c' =? 93)%N.
      - injection H as _ <-. simpl in *. lia.
      - apply IHa in H. simpl in *. lia. }
    repeat (apply literal_length in H; [exact H | clear H; intro H]).
    now apply match_number_length in H.
  - intros depth s acc v r H. simpl in H.
    destruct (scan_once ip f depth s) as [v1 r1| |e|] eqn:E;
      try discriminate.
    apply IHs in E. pose proof (skip_ws_length r1) as W.
    destruct (skip_ws r1) as [|c r']; [discriminate|].
    destruct (c =? 93)%N.
    + injection H as _ <-. simpl in *. lia.
    + destruct (c =? 44)%N; [|discriminate].
      apply IHa in H. pose proof (skip_ws_length r'). simpl in *. lia.
  - intros depth s d v r H. simpl in H.
    destruct s as [|q t]; [discriminate|].
    destruct (q =? 34)%N; [|discriminate].
    destruct (scanstring t []) as [key r1| |e|] eqn:K; try discriminate.
    apply scanstring_length with (n := List.length t) in K; [|lia].
    pose proof (skip_ws_length r1) as W1.
    destruct (skip_ws r1) as [|colon r2]; [discriminate|].
    destruct (colon =? 58)%N; [|discriminate].
    pose proof (skip_ws_length r2) as W2.
    destruct (scan_once ip f depth (skip_ws r2)) as [v3 r3| |e|] eqn:E;
      try discriminate.
    apply IHs in E. pose proof (skip_ws_length r3) as W3.
    destruct (skip_ws r3) as [|c r4]; [discriminate|].
    destruct (c =? 125)%N.
    + injection H as _ <-. simpl in *. lia.
    + destruct (c =? 44)%N; [|discriminate].
      apply IHo in H. pose proof (skip_ws_length r4). simpl in *. lia.
Qed.

(** The scanner does not run out of fuel when it is given twice the length
    of its input, and one or two more. *)
Lemma scan_fuel (ip : Interpreter) (f : nat) :
  (forall depth s,
      2 * List.length s + 1 <= f -> scan_once ip f depth s <> OutOfFuel)
  /\ (forall depth s acc,
      2 * List.length s + 2 <= f ->
      parse_array ip f depth s acc <> OutOfFuel)
  /\ (forall depth s d,
      2 * List.length s + 2 <= f ->
      parse_object ip f depth s d <> OutOfFuel).
Proof.
  induction f as [|f [IHs [IHa IHo]]];
    [repeat split; intros; lia|].
  repeat split.
  - intros depth s L H. simpl in H. destruct s as [|c t]; [discriminate|].
    simpl in L.
    destruct (c =? 34)%N.
    { destruct (scanstring t []) eqn:E; try discriminate.
      now apply scanstring_fuel with (n := List.length t) in E. }
    destruct (c =? 123)%N.
    { destruct depth as [|inner]; [discriminate|].
      pose proof (skip_ws_length t) as W.
      destruct (skip_ws t) as [|c' r']; [discriminate|].
      destruct (c' =? 125)%N; [discriminate|].
      apply IHo in H; [exact H | simpl in *; lia]. }
    destruct (c =? 91)%N.
    { destruct depth as [|inner]; [discriminate|].
      pose proof (skip_ws_length t) as W.
      destruct (skip_ws t) as [|c' r']; [discriminate|].
      destruct (c' =? 93)%N; [discriminate|].
      apply IHa in H; [exact H | simpl in *; lia]. }
    repeat apply literal_fuel in H.
    now apply match_number_fuel in H.
  - intros depth s acc L H. simpl in H.
    destruct (scan_once ip f depth s) as [v1 r1| |e|] eqn:E.
    + apply (proj1 (scan_lengths ip f)) in E.
      pose proof (skip_ws_length r1) as W.
      destruct (skip_ws r1) as [|c r']; [discriminate|].
      destruct (c =? 93)%N; [discriminate|].
      destruct (c =? 44)%N; [|discriminate].
      apply IHa in H; [exact H|].
      pose proof (skip_ws_length r'). simpl in *. lia.
    + discriminate.
    + discriminate.
    + apply IHs in E; [exact E | lia].
  - intros depth s d L H. simpl in H.
    destruct s as [|q t]; [discriminate|]. simpl in L.
    destruct (q =? 34)%N; [|discriminate].
    destruct (scanstring t []) as [key r1| |e|] eqn:K; try discriminate.
    + apply scanstring_length with (n := List.length t) in K; [|lia].
      pose proof (skip_ws_length r1) as W1.
      destruct (skip_ws r1) as [|colon r2]; [discriminate|].
      destruct (colon =? 58)%N; [|discriminate].
      pose proof (skip_ws_length r2) as W2.
      destruct (scan_once ip f depth (skip_ws r2)) as [v3 r3| |e|] eqn:E.
      * apply (proj1 (scan_lengths ip f)) in E.
        pose proof (skip_ws_length r3) as W3.
        destruct (skip_ws r3) as [|c r4]; [discriminate|].
        destruct (c =? 125)%N; [discriminate|].
        destruct (c =? 44)%N; [|discriminate].
        apply IHo in H; [exact H|].
        pose proof (skip_ws_length r4). simpl in *. lia.
      * discriminate.
      * discriminate.
      * apply IHs in E; [exact E | simpl in *; lia].
    + now apply scanstring_fuel with (n := List.length t) in K.
Qed.

(** json.loads decides every string: its scan ends on a value or on an
    exception of its own, never for want of fuel. *)
Lemma scan_once_enough (ip : Interpreter) (depth : nat) (s : pystr) :
  scan_once ip (enough s) depth (skip_ws s) <> OutOfFuel.
Proof.
  apply (proj1 (scan_fuel ip (enough s))).
  pose proof (skip_ws_length s). unfold enough. lia.
Qed.

(** The scanner refuses with Exceptions only. *)
Lemma match_number_refuses (ip : Interpreter) (s : pystr) (e : exn) :
  match_number ip s = Refused e -> is_Exception e = true.
Proof.
  unfold match_number.
  destruct (match s with
            | c :: r0 => if (c =? 45)%N then (true, r0) else (false, s)
            | [] => (false, s)
            end) as [neg s1].
  destruct (int_part s1) as [[i s2]|]; [|discriminate].
  destruct (frac_part s2) as [f s3]. destruct (exp_part s3) as [x s4].
  destruct f, x; try destruct (too_many_digits ip i);
    try discriminate; now intros [= <-].
Qed.

Lemma literal_refuses (word : string) (v : pyval) (s : pystr)
    (otherwise : scan pyval) (e : exn) :
  literal word v s otherwise = Refused e -> otherwise = Refused e.
Proof. unfold literal. now destruct (startswith s (py word)). Qed.

Lemma scan_refuses (ip : Interpreter) (f : nat) :
  (forall depth s e,
      scan_once ip f depth s = Refused e -> is_Exception e = true)
  /\ (forall depth s acc e,
      parse_array ip f depth s acc = Refused e -> is_Exception e = true)
  /\ (forall depth s d e,
      parse_object ip f depth s d = Refused e -> is_Exception e = true).
Proof.
  induction f as [|f [IHs [IHa IHo]]];
    [repeat split; intros; discriminate|].
  repeat split.
  - intros depth s e H. simpl in H. destruct s as [|c t]; [discriminate|].
    destruct (c =? 34)%N.
    { destruct (scanstring t []) eqn:E; try discriminate.
      now apply scanstring_refuses with (n := List.length t) in E. }
    destruct (c =? 123)%N.
    { destruct depth as [|inner]; [now injection H as <-|].
      destruct (skip_ws t) as [|c' r']; [discriminate|].
      destruct (c' =? 125)%N; [discriminate | eauto]. }
    destruct (c =? 91)%N.
    { destruct depth as [|inner]; [now injection H as <-|].
      destruct (skip_ws t) as [|c' r']; [discriminate|].
      destruct (c' =? 93)%N; [discriminate | eauto]. }
    repeat apply literal_refuses in H.
    now apply match_number_refuses in H.
  - intros depth s acc e H. simpl in H.
    destruct (scan_once ip f depth s) as [v1 r1| |e1|] eqn:E;
      try discriminate.
    + destruct (skip_ws r1) as [|c r']; [discriminate|].
      destruct (c =? 93)%N; [discriminate|].
      destruct (c =? 44)%N; [eauto | discriminate].
    + injection H as <-. eauto.
  - intros depth s d e H. simpl in H.
    destruct s as [|q t]; [discriminate|].
    destruct (q =? 34)%N; [|discriminate].
    destruct (scanstring t []) as [key r1| |e1|] eqn:K; try discriminate.
    + destruct (skip_ws r1) as [|colon r2]; [discriminate|].
      destruct (colon =? 58)%N; [|discriminate].
      destruct (scan_once ip f depth (skip_ws r2)) as [v3 r3| |e3|] eqn:E;
        try discriminate.
      * destruct (skip_ws r3) as [|c r4]; [discriminate|].
        destruct (c =? 125)%N; [discriminate|].
        destruct (c =? 44)%N; [eauto | discriminate].
      * injection H as <-. eauto.
    + now apply scanstring_refuses with (n := List.length t) in K.
Qed.

End JsonFacts.

(** ** The handlers *)

Module AppFacts.
Import Utf8 Json App PyStrFacts EffFacts Utf8Facts JsonFacts.

Section WithRuntime.

Variable rt : Runtime.

(** [ask_gemini] by cases on what the external call does. *)
Lemma ask_gemini_cases (prompt : pystr) (system : option pystr) :
  ask_gemini rt prompt system =
  let full := full_prompt prompt system in
  (match generate_content rt full with
   | Raise e =>
       if is_Exception e then Ret (GEMINI_ERROR ++ exn_str e) else Raise e
   | Ret response =>
       match text response with
       | Raise e =>
           if is_Exception e then Ret (GEMINI_ERROR ++ exn_str e)
           else Raise e
       | Ret None => Ret NO_RESPONSE
       | Ret (Some s) => Ret (if truthy s then strip s else NO_RESPONSE)
       end
   end, [GenerateContent full]).
Proof.
  unfold ask_gemini, model_generate_content, full_prompt. cbv zeta.
  destruct (generate_content rt _) as [response|e].
  - unfold bind, emit, lift, try_except, ret.
    destruct (text response) as [[s|]|e]; cbn [truthy_text].
    + destruct (truthy s); reflexivity.
    + reflexivity.
    + destruct (is_Exception e); reflexivity.
  - unfold bind, emit, lift, try_except, ret.
    destruct (is_Exception e); reflexivity.
Qed.

(** Every run of [ask_gemini] makes one call to the model, with the
    system prompt and the user prompt joined. *)
Lemma ask_gemini_calls (prompt : pystr) (system : option pystr) :
  calls (ask_gemini rt prompt system)
  = [GenerateContent (full_prompt prompt system)].
Proof. rewrite ask_gemini_cases. reflexivity. Qed.

(** json.loads raises Exceptions only: its decode error, RecursionError
    and ValueError. *)
Lemma json_loads_raises (ip : Interpreter) (reply : pystr) (e : exn) :
  json_loads ip reply = Raise e -> is_Exception e = true.
Proof.
  unfold json_loads.
  destruct (startswith reply [65279%N]); [now intros [= <-]|].
  destruct (scan_once ip (enough reply) (recursion_headroom ip)
              (skip_ws reply)) as [v r| |e1|] eqn:S;
    try (now intros [= <-]).
  - destruct (skip_ws r); [discriminate | now intros [= <-]].
  - intros [= <-]. exact (proj1 (scan_refuses ip _) _ _ _ S).
Qed.

(** The try / except around json.loads always ends with a pair: the two
    members of a JSON object, or the fallback. *)
Lemma parse_reply_cases (reply : pystr) :
  parse_reply rt reply =
  ret (match json_loads (interpreter rt) reply with
       | Ret (PDict members) =>
           (get_or members "metrics" (PList []),
            get_or members "diagnosis" (PStr []))
       | _ => (PList [], PStr reply)
       end).
Proof.
  unfold parse_reply.
  destruct (json_loads (interpreter rt) reply) as [v|e] eqn:J.
  - destruct v; reflexivity.
  - apply json_loads_raises in J.
    unfold lift, bind, try_except, ret. now rewrite J.
Qed.

Lemma analyze_extracted_blank (t : pystr) :
  blank t = true -> analyze_extracted rt t = (Ret NO_TEXT, []).
Proof.
  intros B. unfold analyze_extracted. rewrite truthy_strip, B. reflexivity.
Qed.

(** Past the emptiness check the handler asks the model and shapes its
    reply. *)
Lemma analyze_extracted_asks (t : pystr) :
  blank t = false ->
  analyze_extracted rt t =
  (ai_response <- ask_gemini rt (report_prompt t) None ;;
   p <- parse_reply rt ai_response ;;
   ret (analysis_response (fst p) (snd p))).
Proof.
  intros B. unfold analyze_extracted. rewrite truthy_strip, B. reflexivity.
Qed.

Lemma analyze_extracted_reply (t reply : pystr) :
  blank t = false ->
  result (ask_gemini rt (report_prompt t) None) = Ret reply ->
  analyze_extracted rt t =
  (Ret (match json_loads (interpreter rt) reply with
        | Ret (PDict members) =>
            analysis_response (get_or members "metrics" (PList []))
                              (get_or members "diagnosis" (PStr []))
        | _ => analysis_response (PList []) (PStr reply)
        end),
   [GenerateContent (full_prompt (report_prompt t) None)]).
Proof.
  intros B R. rewrite (analyze_extracted_asks _ B).
  pose proof (ask_gemini_calls (report_prompt t) None) as C.
  destruct (ask_gemini rt (report_prompt t) None) as [r tr].
  simpl in R, C. subst r tr.
  unfold bind at 1. rewrite parse_reply_cases, bind_ret_l. unfold ret.
  destruct (json_loads (interpreter rt) reply) as [[]|]; reflexivity.
Qed.

(** If the model call lets an exception through, so does the handler. *)
Lemma analyze_extracted_raises (t : pystr) (e : exn) :
  blank t = false ->
  result (ask_gemini rt (report_prompt t) None) = Raise e ->
  analyze_extracted rt t =
  (Raise e, [GenerateContent (full_prompt (report_prompt t) None)]).
Proof.
  intros B R. rewrite (analyze_extracted_asks _ B).
  rewrite (bind_raises _ _ R), ask_gemini_calls. reflexivity.
Qed.

(** The handler is its classification chain followed by the common tail. *)
Lemma analyze_file_extract (file : UploadFile) :
  analyze_file rt file =
  (r <- extract_text rt file ;;
   match r with
   | inl extracted_text => analyze_extracted rt extracted_text
   | inr response => ret response
   end).
Proof.
  unfold analyze_file, extract_text.
  destruct (is_text_file _ _ _).
  { destruct (bytes_decode Replace (body file)) as [s|e]; [|reflexivity].
    now rewrite !bind_lift_ret, bind_ret_l. }
  destruct (is_image_file _ _ _).
  { destruct (OCR_AVAILABLE rt); [reflexivity | now rewrite bind_ret_l]. }
  destruct (is_pdf_file _ _); now rewrite bind_ret_l.
Qed.

(** The OCR either reads a text or reports its failure, after opening the
    image and, if that went well, running the recogniser. *)
Lemma run_ocr_cases (body : list byte) :
  run_ocr rt body =
  match Image_open rt body with
  | Ret img =>
      (match image_to_string rt img with
       | Ret t => Ret (inl t)
       | Raise e => if is_Exception e then Ret (inr OCR_FAILED) else Raise e
       end, [ImageOpen body; ImageToString])
  | Raise e =>
      (if is_Exception e then Ret (inr OCR_FAILED) else Raise e,
       [ImageOpen body])
  end.
Proof.
  unfold run_ocr, PIL_Image_open, pytesseract_image_to_string.
  unfold bind, emit, lift, try_except, ret.
  destruct (Image_open rt body) as [img|e].
  - destruct (image_to_string rt img) as [t|e];
      [reflexivity | destruct (is_Exception e); reflexivity].
  - destruct (is_Exception e); reflexivity.
Qed.

(** The classification chain never calls the model. *)
Lemma extract_text_calls (file : UploadFile) (p : pystr) :
  ~ In (GenerateContent p) (calls (extract_text rt file)).
Proof.
  unfold extract_text.
  destruct (is_text_file _ _ _).
  { destruct (bytes_decode_replace_total (body file)) as [s ->].
    simpl. tauto. }
  destruct (is_image_file _ _ _).
  { destruct (OCR_AVAILABLE rt); [|simpl; tauto].
    rewrite run_ocr_cases.
    destruct (Image_open rt (body file)); simpl; intuition discriminate. }
  destruct (is_pdf_file _ _); simpl; tauto.
Qed.

(** The chain hands a text on only from the text branch and from the
    image branch. *)
Lemma extract_text_inl (file : UploadFile) (t : pystr) :
  result (extract_text rt file) = Ret (inl t) ->
  let ct := or_empty (content_type file) in
  (is_text_file rt ct (filename file) = true
   /\ bytes_decode Replace (body file) = Ret t)
  \/ (is_text_file rt ct (filename file) = false
      /\ is_image_file rt ct (filename file) = true
      /\ OCR_AVAILABLE rt = true
      /\ result (run_ocr rt (body file)) = Ret (inl t)).
Proof.
  unfold extract_text. cbv zeta.
  destruct (is_text_file _ _ _).
  { destruct (bytes_decode Replace (body file)) as [s|e]; simpl;
      [|discriminate].
    intros [= ->]. now left. }
  destruct (is_image_file _ _ _).
  { destruct (OCR_AVAILABLE rt); [|discriminate].
    intros H. right. now repeat split. }
  destruct (is_pdf_file _ _); discriminate.
Qed.

End WithRuntime.

End AppFacts.

(** ** The properties of the specification *)

Import Utf8 Json App Samples.
Import PyStrFacts EffFacts Utf8Facts JsonFacts AppFacts.

(** When the chain hands a text on, the handler goes on with it. *)
Lemma analyze_file_reaches (rt : Runtime) (file : UploadFile) (t : pystr) :
  result (extract_text rt file) = Ret (inl t) ->
  result (analyze_file rt file) = result (analyze_extracted rt t)
  /\ calls (analyze_file rt file)
     = calls (extract_text rt file) ++ calls (analyze_extracted rt t).
Proof.
  intros E. rewrite analyze_file_extract.
  exact (bind_returns _ _ E).
Qed.

(** The responses of the branches that return early are error responses. *)
Lemma extract_text_inr (rt : Runtime) (file : UploadFile) (r : pyval) :
  result (extract_text rt file) = Ret (inr r) ->
  is_error_response r = true
  /\ analyze_file rt file = (Ret r, calls (extract_text rt file)).
Proof.
  intros E. split.
  - revert E. unfold extract_text.
    destruct (is_text_file _ _ _).
    { destruct (bytes_decode Replace (body file)); discriminate. }
    destruct (is_image_file _ _ _).
    { destruct (OCR_AVAILABLE rt); [|now intros [= <-]].
      rewrite run_ocr_cases.
      destruct (Image_open rt (body file)) as [img|e]; simpl.
      - destruct (image_to_string rt img) as [s|e];
          [discriminate | destruct (is_Exception e)];
          [now intros [= <-] | discriminate].
      - destruct (is_Exception e); [now intros [= <-] | discriminate]. }
    destruct (is_pdf_file _ _); now intros [= <-].
  - rewrite analyze_file_extract.
    destruct (extract_text rt file) as [o tr]. simpl in E. subst o.
    simpl. now rewrite app_nil_r.
Qed.

(** A name that ends in .pdf ends in none of the other extensions. *)
Lemma pdf_is_no_text_or_image (rt : Runtime) (ct name : pystr) :
  is_pdf_file rt name = true ->
  startswith ct (py "text/") = false ->
  startswith ct (py "image/") = false ->
  is_text_file rt ct name = false /\ is_image_file rt ct name = false.
Proof.
  unfold is_pdf_file, is_text_file, is_image_file, endswith_any.
  intros P -> ->. cbn [orb existsb].
  change (py ".pdf") with (py ".pd" ++ [102%N]) in P.
  rewrite (@endswith_last_differs _ (py ".pd") (py ".tx") 102 116)
    by (discriminate || exact P).
  change (py ".png") with (py ".pn" ++ [103%N]).
  change (py ".jpg") with (py ".jp" ++ [103%N]).
  change (py ".jpeg") with (py ".jpe" ++ [103%N]).
  rewrite !(@endswith_last_differs _ (py ".pd") _ 102 103)
    by (discriminate || exact P).
  split; reflexivity.
Qed.

Lemma contains_here (x rest : pystr) : contains (x ++ rest) x.
Proof. now exists [], rest. Qed.

Lemma contains_app_r (a b x : pystr) : contains b x -> contains (a ++ b) x.
Proof.
  intros [before [after ->]]. exists (a ++ before), after.
  now rewrite <- app_assoc.
Qed.

(** C1 (amended): [ask_gemini] is fail-soft for the exceptions that
    [except Exception] catches.  Whenever everything the external call can
    raise -- in generate_content itself or when the text of its reply is
    read -- is an instance of Exception, the helper returns a string and
    lets no exception through; and when the call raises such an exception,
    the string is the marker "[Gemini error] " followed by the text of the
    exception. *)
Theorem ask_gemini_fail_soft
    (rt : Runtime) (prompt : pystr) (system : option pystr) :
  (forall e, external_failure rt (full_prompt prompt system) = Some e ->
             is_Exception e = true) ->
  (exists s, result (ask_gemini rt prompt system) = Ret s)
  /\ (forall e, external_failure rt (full_prompt prompt system) = Some e ->
        result (ask_gemini rt prompt system)
        = Ret (GEMINI_ERROR ++ exn_str e)).
Proof.
  intros H. rewrite ask_gemini_cases. cbv zeta. unfold result, fst.
  unfold external_failure in H |- *.
  destruct (generate_content rt _) as [response|e].
  - destruct (text response) as [[s|]|e].
    + split; [eauto | discriminate].
    + split; [eauto | discriminate].
    + rewrite (H e eq_refl). split; [eauto | now intros e' [= <-]].
  - rewrite (H e eq_refl). split; [eauto | now intros e' [= <-]].
Qed.

Lemma ask_gemini_fail_soft_witness :
  result (ask_gemini (failing ResourceExhausted) (py "fever") None)
  = Ret (GEMINI_ERROR ++ py "429 Quota exceeded").
Proof.
  refine (proj2 (@ask_gemini_fail_soft (failing ResourceExhausted)
                   (py "fever") None _) ResourceExhausted eq_refl).
  intros e H. vm_compute in H. injection H as <-. reflexivity.
Defined.

(** C1 as stated does not hold: an exception outside the Exception
    hierarchy, such as KeyboardInterrupt, passes through [ask_gemini] to
    its caller. *)
Lemma ask_gemini_lets_keyboard_interrupt_through :
  result (ask_gemini (failing KeyboardInterrupt) (py "fever") None)
  = Raise KeyboardInterrupt
  /\ ~ (forall rt prompt system,
         exists s, result (ask_gemini rt prompt system) = Ret s).
Proof.
  split; [reflexivity|].
  intros H.
  destruct (H (failing KeyboardInterrupt) (py "fever") None) as [s E].
  discriminate E.
Qed.

(** C2 (amended): an upload whose name ends in .pdf, whatever its case and
    its bytes, and whose declared content type starts neither with text/
    nor with image/, is answered with the fixed PDF error, and the model
    is not called (no external call is made at all). *)
Theorem pdf_rejected (rt : Runtime) (file : UploadFile) :
  is_pdf_file rt (filename file) = true ->
  startswith (or_empty (content_type file)) (py "text/") = false ->
  startswith (or_empty (content_type file)) (py "image/") = false ->
  analyze_file rt file = (Ret PDF_REJECTED, [])
  /\ PDF_REJECTED
     = PDict [(py "error",
               PStr (py "PDF parsing not enabled. Please convert PDF to text or image."))].
Proof.
  intros P T I. split; [|reflexivity].
  destruct (pdf_is_no_text_or_image rt _ _ P T I) as [NT NI].
  unfold analyze_file. cbv zeta. rewrite NT, NI, P. reflexivity.
Qed.

Lemma pdf_rejected_witness :
  analyze_file (replying GLUCOSE_REPLY true)
    (upload "Report.PDF" (Some "application/pdf"%string) "%PDF-1.4")
  = (Ret PDF_REJECTED, []).
Proof.
  refine (proj1 (@pdf_rejected (replying GLUCOSE_REPLY true)
    (upload "Report.PDF" (Some "application/pdf"%string) "%PDF-1.4") _ _ _));
    reflexivity.
Defined.

(** C2 as stated does not hold: a file named report.pdf that is declared
    as text/plain is decoded as text and sent to the model. *)
Lemma pdf_named_text_upload_is_analysed :
  is_pdf_file (replying GLUCOSE_REPLY true) (py "report.pdf") = true
  /\ analyze_file (replying GLUCOSE_REPLY true)
       (upload "report.pdf" (Some "text/plain"%string) "glucose 95")
     = (Ret (analysis_response GLUCOSE_METRICS (PStr (py "normal"))),
        [GenerateContent
           (full_prompt (report_prompt (py "glucose 95")) None)]).
Proof. split; vm_compute; reflexivity. Qed.

(** C3: on a request that reaches the model call -- the chain extracted a
    text [t] that is not blank, and [ask_gemini] returned [reply] -- a
    reply that json.loads rejects, or that parses to a value without
    [get], gives the fallback: metrics is the empty list and diagnosis is
    the reply itself.  In particular the reply "I cannot parse this."
    gives metrics [] and that sentence as diagnosis. *)
Theorem unparseable_reply_falls_back
    (rt : Runtime) (file : UploadFile) (t reply : pystr) :
  result (extract_text rt file) = Ret (inl t) ->
  blank t = false ->
  result (ask_gemini rt (report_prompt t) None) = Ret reply ->
  (unparseable rt reply = true ->
   result (analyze_file rt file)
   = Ret (PDict [(py "metrics", PList []); (py "diagnosis", PStr reply)]))
  /\ (reply = py "I cannot parse this." ->
      result (analyze_file rt file)
      = Ret (PDict [(py "metrics", PList []);
                    (py "diagnosis", PStr (py "I cannot parse this."))])).
Proof.
  intros E B R.
  assert (G : unparseable rt reply = true ->
              result (analyze_file rt file)
              = Ret (analysis_response (PList []) (PStr reply))).
  { intros U. rewrite (proj1 (analyze_file_reaches rt file E)).
    rewrite (@analyze_extracted_reply rt t reply B R). unfold result, fst.
    unfold unparseable in U.
    destruct (json_loads (interpreter rt) reply) as [[]|];
      try reflexivity; discriminate. }
  split; [exact G|].
  intros ->. apply G. reflexivity.
Qed.

Lemma unparseable_reply_falls_back_witness :
  result (analyze_file (replying (py "I cannot parse this.") true)
            (upload "lab.txt" None "glucose 95"))
  = Ret (PDict [(py "metrics", PList []);
                (py "diagnosis", PStr (py "I cannot parse this."))]).
Proof.
  refine (proj1 (@unparseable_reply_falls_back
                   (replying (py "I cannot parse this.") true)
                   (upload "lab.txt" None "glucose 95")
                   (py "glucose 95") (py "I cannot parse this.") _ _ _) _);
    reflexivity.
Defined.



(** What the interpreter refuses is not parsed.  Under the settings of
    CPython as it comes, json.loads raises RecursionError on the reply with
    1000 nested arrays and ValueError on the reply with an integer of 4400
    digits; both are JSON objects by their grammar, and for both the
    handler returns the fallback, with the reply as diagnosis. *)
Lemma refused_replies_fall_back :
  unparseable (replying DEEP_REPLY true) DEEP_REPLY = true
  /\ unparseable (replying LONG_INT_REPLY true) LONG_INT_REPLY = true
  /\ result (analyze_file (replying DEEP_REPLY true)
               (upload "lab.txt" None "glucose 95"))
     = Ret (analysis_response (PList []) (PStr DEEP_REPLY))
  /\ result (analyze_file (replying LONG_INT_REPLY true)
               (upload "lab.txt" None "glucose 95"))
     = Ret (analysis_response (PList []) (PStr LONG_INT_REPLY)).
Proof. repeat split; vm_compute; reflexivity. Qed.

(** C5: a symptom that is empty or holds whitespace only is answered with
    the fixed request for a description, and no external call is made;
    for every other symptom the model is called, once, with a prompt in
    which the stripped symptom occurs. *)
Theorem analyze_text_guard (rt : Runtime) (req : AnalyzeRequest) :
  (blank (symptom req) = true ->
   analyze_text rt req
   = (Ret (PDict [(py "result",
                   PStr (py "Please provide a non-empty symptom description."))]),
      []))
  /\ (blank (symptom req) = false ->
      exists p,
        calls (analyze_text rt req) = [GenerateContent p]
        /\ contains p (strip (symptom req))).
Proof.
  unfold analyze_text. rewrite truthy_strip. split; intros B; rewrite B.
  - reflexivity.
  - cbn [negb].
    exists (full_prompt (symptom_prompt (strip (symptom req))) None).
    split.
    + pose proof (ask_gemini_calls rt
                    (symptom_prompt (strip (symptom req))) None) as C.
      destruct (ask_gemini rt _ None) as [[a|e] tr]; simpl in C; subst tr;
        reflexivity.
    + unfold full_prompt, symptom_prompt.
      do 8 apply contains_app_r. apply contains_here.
Qed.

Lemma analyze_text_guard_witness :
  analyze_text (replying (py "Rest and drink water.") true)
    {| symptom := [32%N; 9%N; 10%N] |}
  = (Ret (PDict [(py "result",
                  PStr (py "Please provide a non-empty symptom description."))]),
     [])
  /\ exists p,
       calls (analyze_text (replying (py "Rest and drink water.") true)
                {| symptom := py "  mild fever " |})
       = [GenerateContent p]
       /\ contains p (py "mild fever").
Proof.
  split.
  - refine (proj1 (@analyze_text_guard
                     (replying (py "Rest and drink water.") true)
                     {| symptom := [32%N; 9%N; 10%N] |}) _).
    reflexivity.
  - refine (proj2 (@analyze_text_guard
                     (replying (py "Rest and drink water.") true)
                     {| symptom := py "  mild fever " |}) _).
    reflexivity.
Defined.




(** C7: when the chain extracts, from a text upload or from an image, a
    text that is empty or holds whitespace only, the response is the
    error "No text could be extracted from the file." and the model is
    not called: the handler does with that text what it does with no
    text at all. *)
Theorem blank_extraction_is_no_text
    (rt : Runtime) (file : UploadFile) (t : pystr) :
  result (extract_text rt file) = Ret (inl t) ->
  blank t = true ->
  result (analyze_file rt file)
  = Ret (PDict [(py "error",
                 PStr (py "No text could be extracted from the file."))])
  /\ (forall p, ~ In (GenerateContent p) (calls (analyze_file rt file)))
  /\ analyze_extracted rt t = analyze_extracted rt [].
Proof.
  intros E B.
  destruct (analyze_file_reaches rt file E) as [R C].
  rewrite R, C, (analyze_extracted_blank rt t B).
  split; [reflexivity|]. split.
  - intros p I. cbn [calls snd] in I. rewrite app_nil_r in I.
    exact (extract_text_calls rt file p I).
  - symmetry. now apply analyze_extracted_blank.
Qed.

Lemma blank_extraction_is_no_text_witness :
  result (analyze_file (replying GLUCOSE_REPLY true)
            (upload "scan.png" (Some "image/png"%string) "   "))
  = Ret (PDict [(py "error",
                 PStr (py "No text could be extracted from the file."))]).
Proof.
  refine (proj1 (@blank_extraction_is_no_text (replying GLUCOSE_REPLY true)
                   (upload "scan.png" (Some "image/png"%string) "   ")
                   (py "   ") _ _));
    reflexivity.
Defined.

(** C8 (amended): when the import probe found no OCR, an upload that the
    text check does not claim and that the image check accepts (content
    type starting with image/, or a name ending in .png, .jpg or .jpeg)
    is answered with the OCR-unavailable error, and no external call is
    made: the image is not opened and no recognition is run. *)
Theorem ocr_unavailable_rejects_images (rt : Runtime) (file : UploadFile) :
  OCR_AVAILABLE rt = false ->
  is_text_file rt (or_empty (content_type file)) (filename file) = false ->
  is_image_file rt (or_empty (content_type file)) (filename file) = true ->
  analyze_file rt file
  = (Ret (PDict [(py "error",
                  PStr (py "OCR is not available. Install Pillow and pytesseract."))]),
     []).
Proof.
  intros O T I. unfold analyze_file. cbv zeta. rewrite T, I, O. reflexivity.
Qed.

Lemma ocr_unavailable_rejects_images_witness :
  analyze_file (replying GLUCOSE_REPLY false)
    (upload "scan.JPG" (Some "application/octet-stream"%string) "glucose 95")
  = (Ret (PDict [(py "error",
                  PStr (py "OCR is not available. Install Pillow and pytesseract."))]),
     []).
Proof.
  refine (@ocr_unavailable_rejects_images (replying GLUCOSE_REPLY false)
    (upload "scan.JPG" (Some "application/octet-stream"%string) "glucose 95")
    _ _ _);
    reflexivity.
Defined.

(** C8 as stated does not hold: without OCR, a file named scan.png that
    is declared as text/plain is not rejected; it is decoded as text and
    analysed. *)
Lemma png_named_text_upload_needs_no_ocr :
  OCR_AVAILABLE (replying GLUCOSE_REPLY false) = false
  /\ is_image_file (replying GLUCOSE_REPLY false)
       (py "text/plain") (py "scan.png") = true
  /\ analyze_file (replying GLUCOSE_REPLY false)
       (upload "scan.png" (Some "text/plain"%string) "glucose 95")
     = (Ret (analysis_response GLUCOSE_METRICS (PStr (py "normal"))),
        [GenerateContent
           (full_prompt (report_prompt (py "glucose 95")) None)]).
Proof. repeat split; vm_compute; reflexivity. Qed.

(** C9: on an upload that the text check accepts, decoding cannot fail,
    whatever the bytes: it gives a string, and the handler goes on to the
    emptiness check with it.  The string is the strict decoding of the
    bytes when they are valid UTF-8, and holds the replacement character
    U+FFFD when they are not. *)
Theorem text_upload_always_decodes (rt : Runtime) (file : UploadFile) :
  is_text_file rt (or_empty (content_type file)) (filename file) = true ->
  exists s,
    bytes_decode Replace (body file) = Ret s
    /\ analyze_file rt file = analyze_extracted rt s
    /\ (forall s', bytes_decode Strict (body file) = Ret s' -> s = s')
    /\ ((exists e, bytes_decode Strict (body file) = Raise e) ->
        In REPLACEMENT s).
Proof.
  intros T.
  destruct (bytes_decode_replace_total (body file)) as [s D].
  exists s. split; [exact D|]. split; [|split].
  - unfold analyze_file. cbv zeta. rewrite T, D. apply bind_lift_ret.
  - intros s' S. pose proof (decode_loop_agrees (body file) Idle) as A.
    unfold bytes_decode in S, D. rewrite S in A. simpl in A. congruence.
  - intros [e S]. pose proof (decode_loop_agrees (body file) Idle) as A.
    unfold bytes_decode in S, D. rewrite S in A.
    destruct A as [s' [A I]]. congruence.
Qed.

Lemma text_upload_always_decodes_witness :
  exists s,
    bytes_decode Replace [x67; xff; x6c] = Ret s
    /\ analyze_file (replying GLUCOSE_REPLY true)
         {| filename := py "lab.txt"; content_type := None;
            body := [x67; xff; x6c] |}
       = analyze_extracted (replying GLUCOSE_REPLY true) s
    /\ (forall s', bytes_decode Strict [x67; xff; x6c] = Ret s' -> s = s')
    /\ ((exists e, bytes_decode Strict [x67; xff; x6c] = Raise e) ->
        In REPLACEMENT s).
Proof.
  refine (@text_upload_always_decodes (replying GLUCOSE_REPLY true)
            {| filename := py "lab.txt"; content_type := None;
               body := [x67; xff; x6c] |} _).
  reflexivity.
Defined.

(** C10: the classification is an ordered chain.  The text check (content
    type starting with text/, or name ending in .txt) comes first, then
    the image check, then the .pdf check, then the rejection; each
    request takes the one branch whose check is the first to hold.  So a
    file declared with a content type that starts with text/ is decoded
    as text whatever its name ends in. *)
Theorem classification_is_ordered (rt : Runtime) (file : UploadFile) :
  let ct := or_empty (content_type file) in
  let name := filename file in
  (is_text_file rt ct name = true ->
   analyze_file rt file
   = (extracted_text <- lift (bytes_decode Replace (body file)) ;;
      analyze_extracted rt extracted_text))
  /\ (is_text_file rt ct name = false ->
      is_image_file rt ct name = true ->
      analyze_file rt file
      = if OCR_AVAILABLE rt then
          r <- run_ocr rt (body file) ;;
          match r with
          | inl extracted_text => analyze_extracted rt extracted_text
          | inr response => ret response
          end
        else ret OCR_UNAVAILABLE)
  /\ (is_text_file rt ct name = false ->
      is_image_file rt ct name = false ->
      is_pdf_file rt name = true ->
      analyze_file rt file = ret PDF_REJECTED)
  /\ (is_text_file rt ct name = false ->
      is_image_file rt ct name = false ->
      is_pdf_file rt name = false ->
      analyze_file rt file = ret UNSUPPORTED)
  /\ (startswith ct (py "text/") = true ->
      analyze_file rt file
      = (extracted_text <- lift (bytes_decode Replace (body file)) ;;
         analyze_extracted rt extracted_text)).
Proof.
  cbv zeta. unfold analyze_file. cbv zeta.
  repeat split.
  - now intros ->.
  - now intros -> ->.
  - now intros -> -> ->.
  - now intros -> -> ->.
  - intros S. unfold is_text_file. now rewrite S.
Qed.

Lemma classification_is_ordered_witness :
  analyze_file (replying GLUCOSE_REPLY false)
    (upload "scan.jpeg" (Some "text/csv"%string) "glucose 95")
  = (extracted_text <- lift (bytes_decode Replace
                               (list_byte_of_string "glucose 95")) ;;
     analyze_extracted (replying GLUCOSE_REPLY false) extracted_text).
Proof.
  refine (proj2 (proj2 (proj2 (proj2
    (@classification_is_ordered (replying GLUCOSE_REPLY false)
       (upload "scan.jpeg" (Some "text/csv"%string) "glucose 95"))))) _).
  reflexivity.
Defined.

(** ** Further properties of the handlers *)

Import Obs.

Lemma lstrip_idem (s : pystr) : lstrip (lstrip s) = lstrip s.
Proof.
  induction s as [|c r IH]; simpl; [reflexivity|].
  destruct (is_space c) eqn:E; [exact IH|]. simpl. now rewrite E.
Qed.

Lemma lstrip_fixed_prefix (a b : pystr) :
  lstrip (a ++ b) = a ++ b -> lstrip a = a.
Proof.
  destruct a as [|c a']; [reflexivity|]. intros H.
  pose proof (lstrip_head _ H) as S. simpl. now rewrite S.
Qed.

(** What [strip] returns has no whitespace left at either end. *)
Lemma strip_trimmed (s : pystr) : trimmed (strip s).
Proof.
  unfold trimmed, strip, rstrip. split.
  - destruct (lstrip_suffix (rev (lstrip s))) as [ws [E _]].
    apply lstrip_fixed_prefix with (b := rev ws).
    rewrite <- rev_app_distr, <- E, rev_involutive. apply lstrip_idem.
  - now rewrite rev_involutive, lstrip_idem.
Qed.

(** An Exception raised by the external call becomes the marker string. *)
Lemma ask_gemini_failure
    (rt : Runtime) (prompt : pystr) (system : option pystr) (e : exn) :
  external_failure rt (full_prompt prompt system) = Some e ->
  is_Exception e = true ->
  result (ask_gemini rt prompt system) = Ret (GEMINI_ERROR ++ exn_str e).
Proof.
  intros F X. rewrite ask_gemini_cases. cbv zeta. unfold result, fst.
  unfold external_failure in F.
  destruct (generate_content rt _) as [response|e0].
  - destruct (text response) as [[s|]|e0]; try discriminate.
    injection F as ->. now rewrite X.
  - injection F as ->. now rewrite X.
Qed.

(** With externals that raise Exceptions only, [ask_gemini] returns. *)
Lemma ask_gemini_returns
    (rt : Runtime) (prompt : pystr) (system : option pystr) :
  raises_only_Exceptions rt ->
  exists s, result (ask_gemini rt prompt system) = Ret s.
Proof.
  intros [G [T _]]. rewrite ask_gemini_cases. cbv zeta. unfold result, fst.
  destruct (generate_content rt _) as [response|e] eqn:C.
  - destruct (text response) as [[s|]|e] eqn:X; eauto.
    rewrite (T _ _ _ C X). eauto.
  - rewrite (G _ _ C). eauto.
Qed.

(** X1: /analyze never fails when the external call raises Exceptions
    only: whatever the symptom, the handler returns a dict with the one
    key result, which holds a string. *)
Theorem analyze_text_always_answers (rt : Runtime) (req : AnalyzeRequest) :
  raises_only_Exceptions rt ->
  exists s, result (analyze_text rt req) = Ret (PDict [(py "result", PStr s)]).
Proof.
  intros W. unfold analyze_text.
  destruct (truthy (strip (symptom req))); cbn [negb].
  - destruct (@ask_gemini_returns rt
                (symptom_prompt (strip (symptom req))) None W) as [s R].
    exists s. now rewrite (proj1 (bind_returns _ _ R)).
  - now eexists.
Qed.

Lemma analyze_text_always_answers_witness :
  exists s,
    result (analyze_text (failing ResourceExhausted)
              {| symptom := py "headache" |})
    = Ret (PDict [(py "result", PStr s)]).
Proof.
  apply (@analyze_text_always_answers (failing ResourceExhausted)
           {| symptom := py "headache" |}).
  repeat split; simpl; intros; try discriminate.
  match goal with H : Raise _ = Raise _ |- _ => now injection H as <- end.
Defined.

(** X2: when the external call fails with an Exception on a symptom that
    is not blank, /analyze still answers: the result field holds the
    marker "[Gemini error] " followed by the text of the exception, and
    the model was called once. *)
Theorem analyze_text_reports_upstream_failure
    (rt : Runtime) (req : AnalyzeRequest) (e : exn) :
  blank (symptom req) = false ->
  external_failure rt
    (full_prompt (symptom_prompt (strip (symptom req))) None) = Some e ->
  is_Exception e = true ->
  analyze_text rt req
  = (Ret (PDict [(py "result", PStr (py "[Gemini error] " ++ exn_str e))]),
     [GenerateContent
        (full_prompt (symptom_prompt (strip (symptom req))) None)]).
Proof.
  intros B F X. unfold analyze_text. rewrite truthy_strip, B. cbn [negb].
  pose proof (@ask_gemini_failure rt _ None e F X) as R.
  pose proof (ask_gemini_calls rt
                (symptom_prompt (strip (symptom req))) None) as C.
  destruct (ask_gemini rt _ None) as [r tr]. simpl in R, C. subst r tr.
  reflexivity.
Qed.

Lemma analyze_text_reports_upstream_failure_witness :
  analyze_text (failing ResourceExhausted) {| symptom := py " headache " |}
  = (Ret (PDict [(py "result",
                  PStr (py "[Gemini error] " ++ py "429 Quota exceeded"))]),
     [GenerateContent
        (full_prompt (symptom_prompt (py "headache")) None)]).
Proof.
  apply (@analyze_text_reports_upstream_failure
           (failing ResourceExhausted) {| symptom := py " headache " |}
           ResourceExhausted); reflexivity.
Defined.

(** X3: when the model call returns a reply whose text can be read,
    [ask_gemini] returns the placeholder "[No response]" exactly in three
    cases: the text is None, the text is the empty string, or the text
    itself strips to those characters.  A text that is not empty but
    holds whitespace only is passed on stripped, as the empty string, and
    not as the placeholder. *)
Theorem blank_reply_is_not_replaced
    (rt : Runtime) (prompt : pystr) (system : option pystr)
    (response : GenResponse) (t : option pystr) :
  generate_content rt (full_prompt prompt system) = Ret response ->
  text response = Ret t ->
  (result (ask_gemini rt prompt system) = Ret (py "[No response]")
   <-> t = None \/ t = Some []
       \/ exists s, t = Some s /\ strip s = py "[No response]")
  /\ (forall s, t = Some s -> s <> [] -> blank s = true ->
                result (ask_gemini rt prompt system) = Ret []).
Proof.
  intros G T. rewrite ask_gemini_cases. cbv zeta. unfold result, fst.
  rewrite G, T. split; [split|].
  - destruct t as [[|c r]|]; [now right; left | | now left].
    cbn [truthy]. intros [= E]. right. right. now exists (c :: r).
  - intros [-> | [-> | [s [-> E]]]]; try reflexivity.
    destruct s as [|c r]; [discriminate E|]. cbn [truthy]. now rewrite E.
  - intros s -> N B. destruct s as [|c r]; [congruence|]. cbn [truthy].
    f_equal. now apply strip_nil_iff.
Qed.

Lemma blank_reply_is_not_replaced_witness :
  (result (ask_gemini (answering (Ret (Some (py " [No response] "))))
             (py "fever") None)
   = Ret (py "[No response]")
   <-> Some (py " [No response] ") = None
       \/ Some (py " [No response] ") = Some []
       \/ exists s, Some (py " [No response] ") = Some s
                    /\ strip s = py "[No response]")
  /\ result (ask_gemini (answering (Ret (Some [32%N; 10%N]))) (py "fever")
               None)
     = Ret [].
Proof.
  split.
  - apply (proj1 (@blank_reply_is_not_replaced
                    (answering (Ret (Some (py " [No response] "))))
                    (py "fever") None
                    {| text := Ret (Some (py " [No response] ")) |}
                    (Some (py " [No response] ")) eq_refl eq_refl)).
  - apply (proj2 (@blank_reply_is_not_replaced
                    (answering (Ret (Some [32%N; 10%N])))
                    (py "fever") None {| text := Ret (Some [32%N; 10%N]) |}
                    (Some [32%N; 10%N]) eq_refl eq_refl) [32%N; 10%N]);
      [reflexivity | discriminate | reflexivity].
Defined.

(** X4: a reply with text reaches the caller of [ask_gemini] trimmed: it
    is the text of the reply without a blank prefix and a blank suffix,
    the characters in between unchanged, and it neither starts nor ends
    with whitespace. *)
Theorem model_reply_is_trimmed
    (rt : Runtime) (prompt : pystr) (system : option pystr)
    (response : GenResponse) (s : pystr) :
  generate_content rt (full_prompt prompt system) = Ret response ->
  text response = Ret (Some s) ->
  s <> [] ->
  exists reply before after,
    result (ask_gemini rt prompt system) = Ret reply
    /\ s = before ++ reply ++ after
    /\ blank before = true /\ blank after = true
    /\ trimmed reply.
Proof.
  intros G T N. rewrite ask_gemini_cases. cbv zeta. unfold result, fst.
  rewrite G, T. destruct s as [|c r]; [congruence|]. cbn [truthy].
  destruct (strip_spec (c :: r)) as [before [after [E [B A]]]].
  exists (strip (c :: r)), before, after.
  repeat split; try assumption; apply strip_trimmed.
Qed.

Lemma model_reply_is_trimmed_witness :
  exists reply before after,
    result (ask_gemini (answering (Ret (Some (py " rest well "))))
              (py "fever") None) = Ret reply
    /\ py " rest well " = before ++ reply ++ after
    /\ blank before = true /\ blank after = true
    /\ trimmed reply.
Proof.
  apply (@model_reply_is_trimmed (answering (Ret (Some (py " rest well "))))
           (py "fever") None {| text := Ret (Some (py " rest well ")) |}
           (py " rest well "));
    [reflexivity | reflexivity | discriminate].
Defined.

(** *** Replies that are not JSON objects *)

#[local] Arguments literal : simpl never.
#[local] Arguments match_number : simpl never.
#[local] Arguments scanstring : simpl never.

Lemma parse_array_is_list (ip : Interpreter) (f : nat) :
  forall depth s acc v r,
    parse_array ip f depth s acc = Scanned v r ->
    exists items, v = PList items.
Proof.
  induction f as [|f IH]; intros depth s acc v r H; simpl in H;
    [discriminate|].
  destruct (scan_once ip f depth s) as [v1 r1| |e|]; try discriminate.
  destruct (skip_ws r1) as [|c r']; [discriminate|].
  destruct (c =? 93)%N; [injection H as <- _; eauto|].
  destruct (c =? 44)%N; [eauto | discriminate].
Qed.

Lemma match_number_is_no_dict
    (ip : Interpreter) (s : pystr) (v : pyval) (r : pystr) :
  match_number ip s = Scanned v r -> is_dict v = false.
Proof.
  unfold match_number.
  destruct (match s with
            | c :: r0 => if (c =? 45)%N then (true, r0) else (false, s)
            | [] => (false, s)
            end) as [neg s1].
  destruct (int_part s1) as [[i s2]|]; [|discriminate].
  destruct (frac_part s2) as [f s3]. destruct (exp_part s3) as [e s4].
  destruct f, e; try destruct (too_many_digits ip i);
    try discriminate; now intros [= <- _].
Qed.

Lemma literal_is_no_dict (word : string) (v : pyval) (s : pystr)
    (otherwise : scan pyval) (v' : pyval) (r : pystr) :
  is_dict v = false ->
  (otherwise = Scanned v' r -> is_dict v' = false) ->
  literal word v s otherwise = Scanned v' r -> is_dict v' = false.
Proof.
  unfold literal. intros D O. destruct (startswith s (py word)); [|exact O].
  now intros [= <- _].
Qed.

(** The scanner gives a dict only for a text that opens with a brace. *)
Lemma scan_once_dict_brace
    (ip : Interpreter) (f depth : nat) (s : pystr) (v : pyval) (r : pystr) :
  scan_once ip f depth s = Scanned v r -> is_dict v = true ->
  exists rest, s = 123%N :: rest.
Proof.
  destruct f as [|f]; simpl; [discriminate|].
  destruct s as [|c t]; [discriminate|].
  destruct (c =? 34)%N.
  { destruct (scanstring t []); try discriminate.
    intros [= <- _]. discriminate. }
  destruct (c =? 123)%N eqn:B.
  { apply N.eqb_eq in B. subst c. eauto. }
  destruct (c =? 91)%N.
  { destruct depth as [|inner]; [discriminate|].
    destruct (skip_ws t) as [|c' r']; [discriminate|].
    destruct (c' =? 93)%N; [intros [= <- _]; discriminate|].
    intros H. apply parse_array_is_list in H. destruct H as [items ->].
    discriminate. }
  intros H D. exfalso.
  assert (N : is_dict v = false); [|congruence].
  revert H.
  repeat (apply literal_is_no_dict; [reflexivity|]).
  apply match_number_is_no_dict.
Qed.

Lemma json_loads_dict_brace
    (ip : Interpreter) (reply : pystr) (members : list (pystr * pyval)) :
  json_loads ip reply = Ret (PDict members) -> starts_object reply = true.
Proof.
  unfold json_loads, starts_object.
  destruct (startswith reply [65279%N]); [discriminate|].
  destruct (scan_once ip (enough reply) (recursion_headroom ip)
              (skip_ws reply)) as [v r| |e|] eqn:S;
    try discriminate.
  destruct (skip_ws r); [|discriminate].
  intros [= ->].
  destruct (scan_once_dict_brace _ _ _ _ S eq_refl) as [rest ->].
  reflexivity.
Qed.

Lemma unparseable_without_brace (rt : Runtime) (reply : pystr) :
  starts_object reply = false -> unparseable rt reply = true.
Proof.
  intros B. unfold unparseable.
  destruct (json_loads (interpreter rt) reply) as [v|e] eqn:J;
    [|reflexivity].
  destruct v; try reflexivity.
  apply json_loads_dict_brace in J. congruence.
Qed.

(** The response to a request that reached the model and got [reply]. *)
Lemma analyze_file_reply
    (rt : Runtime) (file : UploadFile) (t reply : pystr) :
  result (extract_text rt file) = Ret (inl t) ->
  blank t = false ->
  result (ask_gemini rt (report_prompt t) None) = Ret reply ->
  unparseable rt reply = true ->
  result (analyze_file rt file)
  = Ret (analysis_response (PList []) (PStr reply)).
Proof.
  intros E B R U. rewrite (proj1 (analyze_file_reaches rt file E)).
  rewrite (@analyze_extracted_reply rt t reply B R). unfold result, fst.
  unfold unparseable in U.
  destruct (json_loads (interpreter rt) reply) as [[]|];
    try reflexivity; discriminate.
Qed.

(** X5: the reply of the model is read as JSON only when it opens with a
    brace.  On a request that reached the model call, every reply whose
    first character that is not a space, tab or line break is something
    else -- prose, a fenced block, a JSON array -- is returned whole as the
    diagnosis, with an empty metrics list. *)
Theorem reply_without_brace_is_the_diagnosis
    (rt : Runtime) (file : UploadFile) (t reply : pystr) :
  result (extract_text rt file) = Ret (inl t) ->
  blank t = false ->
  result (ask_gemini rt (report_prompt t) None) = Ret reply ->
  starts_object reply = false ->
  result (analyze_file rt file)
  = Ret (PDict [(py "metrics", PList []); (py "diagnosis", PStr reply)]).
Proof.
  intros E B R S.
  exact (analyze_file_reply rt file E B R
           (unparseable_without_brace rt _ S)).
Qed.

Lemma reply_without_brace_is_the_diagnosis_witness :
  result (analyze_file
            (replying (pyq "```json {'metrics': [], 'diagnosis': 'ok'} ```")
               true)
            (upload "lab.txt" None "glucose 95"))
  = Ret (PDict [(py "metrics", PList []);
                (py "diagnosis",
                 PStr (pyq "```json {'metrics': [], 'diagnosis': 'ok'} ```"))]).
Proof.
  apply (@reply_without_brace_is_the_diagnosis
           (replying (pyq "```json {'metrics': [], 'diagnosis': 'ok'} ```")
              true)
           (upload "lab.txt" None "glucose 95") (py "glucose 95")
           (pyq "```json {'metrics': [], 'diagnosis': 'ok'} ```"));
    reflexivity.
Defined.

(** X6: a failure of the model call does not fail /analyze-file.  On a
    request that reached the model call, an Exception raised by the
    external call gives a successful response with an empty metrics list
    and, as diagnosis, the marker "[Gemini error] " followed by the text
    of the exception. *)
Theorem analyze_file_reports_upstream_failure
    (rt : Runtime) (file : UploadFile) (t : pystr) (e : exn) :
  result (extract_text rt file) = Ret (inl t) ->
  blank t = false ->
  external_failure rt (full_prompt (report_prompt t) None) = Some e ->
  is_Exception e = true ->
  result (analyze_file rt file)
  = Ret (PDict [(py "metrics", PList []);
                (py "diagnosis", PStr (py "[Gemini error] " ++ exn_str e))]).
Proof.
  intros E B F X.
  apply (analyze_file_reply rt file E B
           (@ask_gemini_failure rt (report_prompt t) None e F X)).
  apply unparseable_without_brace. reflexivity.
Qed.

Lemma analyze_file_reports_upstream_failure_witness :
  result (analyze_file (failing ResourceExhausted)
            (upload "lab.txt" None "glucose 95"))
  = Ret (PDict [(py "metrics", PList []);
                (py "diagnosis",
                 PStr (py "[Gemini error] " ++ py "429 Quota exceeded"))]).
Proof.
  apply (@analyze_file_reports_upstream_failure
           (failing ResourceExhausted)
           (upload "lab.txt" None "glucose 95") (py "glucose 95")
           ResourceExhausted); reflexivity.
Defined.

(** X7: a reply of the model without text gives, on a request that
    reached the model call, a successful response whose diagnosis is the
    placeholder "[No response]" and whose metrics list is empty. *)
Theorem analyze_file_reports_missing_reply
    (rt : Runtime) (file : UploadFile) (t : pystr) (response : GenResponse) :
  result (extract_text rt file) = Ret (inl t) ->
  blank t = false ->
  generate_content rt (full_prompt (report_prompt t) None) = Ret response ->
  text response = Ret None \/ text response = Ret (Some []) ->
  result (analyze_file rt file)
  = Ret (PDict [(py "metrics", PList []);
                (py "diagnosis", PStr (py "[No response]"))]).
Proof.
  intros E B G T.
  assert (R : result (ask_gemini rt (report_prompt t) None)
              = Ret NO_RESPONSE).
  { rewrite ask_gemini_cases. cbv zeta. unfold result, fst. rewrite G.
    destruct T as [-> | ->]; reflexivity. }
  apply (analyze_file_reply rt file E B R).
  apply unparseable_without_brace. reflexivity.
Qed.

Lemma analyze_file_reports_missing_reply_witness :
  result (analyze_file (answering (Ret None))
            (upload "lab.txt" None "glucose 95"))
  = Ret (PDict [(py "metrics", PList []);
                (py "diagnosis", PStr (py "[No response]"))]).
Proof.
  apply (@analyze_file_reports_missing_reply (answering (Ret None))
           (upload "lab.txt" None "glucose 95") (py "glucose 95")
           {| text := Ret None |});
    [reflexivity | reflexivity | reflexivity | now left].
Defined.

(** *** Images *)

(** X8: a failure of the OCR is reported and goes no further.  On an
    upload that takes the image branch with OCR available, an Exception
    from the image decoder gives the error "OCR failed on the uploaded
    image." without the recogniser being run, and an Exception from the
    recogniser gives the same error; in neither case is the model
    called. *)
Theorem ocr_failure_is_reported (rt : Runtime) (file : UploadFile) :
  is_text_file rt (or_empty (content_type file)) (filename file) = false ->
  is_image_file rt (or_empty (content_type file)) (filename file) = true ->
  OCR_AVAILABLE rt = true ->
  (forall e, Image_open rt (body file) = Raise e -> is_Exception e = true ->
             analyze_file rt file
             = (Ret (PDict [(py "error",
                             PStr (py "OCR failed on the uploaded image."))]),
                [ImageOpen (body file)]))
  /\ (forall img e,
         Image_open rt (body file) = Ret img ->
         image_to_string rt img = Raise e -> is_Exception e = true ->
         analyze_file rt file
         = (Ret (PDict [(py "error",
                         PStr (py "OCR failed on the uploaded image."))]),
            [ImageOpen (body file); ImageToString])).
Proof.
  intros T I O. unfold analyze_file. cbv zeta. rewrite T, I, O.
  rewrite run_ocr_cases. split.
  - intros e -> ->. reflexivity.
  - intros img e -> -> ->. reflexivity.
Qed.

Lemma ocr_failure_is_reported_witness :
  analyze_file (with_ocr (Raise UnidentifiedImageError) (Ret []))
    (upload "scan.png" (Some "image/png"%string) "not an image")
  = (Ret (PDict [(py "error",
                  PStr (py "OCR failed on the uploaded image."))]),
     [ImageOpen (list_byte_of_string "not an image")])
  /\ analyze_file
       (with_ocr (Ret (list_byte_of_string "PNG"))
          (Raise TesseractNotFoundError))
       (upload "scan.png" (Some "image/png"%string) "PNG")
     = (Ret (PDict [(py "error",
                     PStr (py "OCR failed on the uploaded image."))]),
        [ImageOpen (list_byte_of_string "PNG"); ImageToString]).
Proof.
  split.
  - apply (proj1 (@ocr_failure_is_reported
                    (with_ocr (Raise UnidentifiedImageError) (Ret []))
                    (upload "scan.png" (Some "image/png"%string)
                       "not an image")
                    eq_refl eq_refl eq_refl) UnidentifiedImageError);
      reflexivity.
  - apply (proj2 (@ocr_failure_is_reported
                    (with_ocr (Ret (list_byte_of_string "PNG"))
                       (Raise TesseractNotFoundError))
                    (upload "scan.png" (Some "image/png"%string) "PNG")
                    eq_refl eq_refl eq_refl)
             (list_byte_of_string "PNG") TesseractNotFoundError);
      reflexivity.
Defined.

(** *** The calls that a request makes *)

Lemma model_prompts_app (a b : list event) :
  model_prompts (a ++ b) = model_prompts a ++ model_prompts b.
Proof. apply flat_map_app. Qed.

Lemma analyze_extracted_calls (rt : Runtime) (t : pystr) :
  calls (analyze_extracted rt t)
  = if blank t then []
    else [GenerateContent (full_prompt (report_prompt t) None)].
Proof.
  destruct (blank t) eqn:B.
  - now rewrite (analyze_extracted_blank rt t B).
  - destruct (result (ask_gemini rt (report_prompt t) None))
      as [reply|e] eqn:R.
    + now rewrite (@analyze_extracted_reply rt t reply B R).
    + now rewrite (@analyze_extracted_raises rt t e B R).
Qed.

(** The calls of the classification chain: none, or the image decoder,
    or the image decoder and then the recogniser. *)
Lemma extract_text_calls_cases (rt : Runtime) (file : UploadFile) :
  calls (extract_text rt file) = []
  \/ (is_text_file rt (or_empty (content_type file)) (filename file) = false
      /\ is_image_file rt (or_empty (content_type file)) (filename file)
         = true
      /\ OCR_AVAILABLE rt = true
      /\ ((calls (extract_text rt file) = [ImageOpen (body file)]
           /\ forall t, result (extract_text rt file) <> Ret (inl t))
          \/ calls (extract_text rt file)
             = [ImageOpen (body file); ImageToString])).
Proof.
  unfold extract_text. cbv zeta.
  destruct (is_text_file _ _ _).
  { left. now destruct (bytes_decode Replace (body file)). }
  destruct (is_image_file _ _ _).
  { destruct (OCR_AVAILABLE rt); [|now left].
    right. repeat split. rewrite run_ocr_cases.
    destruct (Image_open rt (body file)) as [img|e].
    - now right.
    - left. split; [reflexivity|]. intros t. simpl.
      destruct (is_Exception e); discriminate. }
  left. now destruct (is_pdf_file _ _).
Qed.

(** The calls of the handler: those of the chain, then those of the
    tail when the chain handed a text on. *)
Lemma analyze_file_calls (rt : Runtime) (file : UploadFile) :
  calls (analyze_file rt file)
  = calls (extract_text rt file)
    ++ match result (extract_text rt file) with
       | Ret (inl t) => calls (analyze_extracted rt t)
       | _ => []
       end.
Proof.
  rewrite analyze_file_extract.
  destruct (extract_text rt file) as [[[t|r]|e] tr]; simpl.
  - now destruct (analyze_extracted rt t).
  - reflexivity.
  - now rewrite app_nil_r.
Qed.

(** X9: the model is called at most once per upload, and only with the
    report prompt of a text that the chain extracted and that is not
    blank; the extracted text occurs in that prompt as it is.  Every
    other request makes no model call. *)
Theorem model_sees_the_extracted_text (rt : Runtime) (file : UploadFile) :
  model_prompts (calls (analyze_file rt file)) = []
  \/ exists t,
       result (extract_text rt file) = Ret (inl t)
       /\ blank t = false
       /\ model_prompts (calls (analyze_file rt file))
          = [full_prompt (report_prompt t) None]
       /\ contains (full_prompt (report_prompt t) None) t.
Proof.
  rewrite analyze_file_calls, model_prompts_app.
  assert (P : model_prompts (calls (extract_text rt file)) = []).
  { destruct (extract_text_calls_cases rt file)
      as [-> | [_ [_ [_ [[-> _] | ->]]]]]; reflexivity. }
  rewrite P. cbn [app].
  destruct (result (extract_text rt file)) as [[t|r]|e] eqn:E;
    [|now left|now left].
  rewrite analyze_extracted_calls.
  destruct (blank t) eqn:B; [now left|].
  right. exists t.
  split; [reflexivity|]. split; [exact B|]. split; [reflexivity|].
  unfold full_prompt, report_prompt.
  do 8 apply contains_app_r. apply contains_here.
Qed.

(** X10: the order of the external calls of an upload.  The image is
    opened before the recogniser runs, and both come before the model
    call; an upload that takes the text branch, and any upload when OCR is
    unavailable, touches neither the image decoder nor the recogniser. *)
Theorem external_calls_are_ordered (rt : Runtime) (file : UploadFile) :
  (exists tail,
      (tail = [] \/ exists p, tail = [GenerateContent p])
      /\ (calls (analyze_file rt file) = tail
          \/ calls (analyze_file rt file) = [ImageOpen (body file)]
          \/ calls (analyze_file rt file)
             = ImageOpen (body file) :: ImageToString :: tail))
  /\ (is_text_file rt (or_empty (content_type file)) (filename file) = true
      \/ OCR_AVAILABLE rt = false ->
      forall ev, In ev (calls (analyze_file rt file)) ->
                 exists p, ev = GenerateContent p).
Proof.
  rewrite analyze_file_calls.
  set (tail := match result (extract_text rt file) with
               | Ret (inl t) => calls (analyze_extracted rt t)
               | _ => []
               end).
  assert (T : tail = [] \/ exists p, tail = [GenerateContent p]).
  { subst tail. destruct (result (extract_text rt file)) as [[t|r]|e];
      [|now left|now left].
    rewrite analyze_extracted_calls. destruct (blank t); eauto. }
  destruct (extract_text_calls_cases rt file)
    as [C | [NT [_ [O [[C N] | C]]]]].
  - rewrite C. cbn [app]. split.
    + exists tail. split; [exact T | now left].
    + intros _ ev I. destruct T as [T | [p T]]; rewrite T in I.
      * destruct I.
      * destruct I as [<- | []]. eauto.
  - assert (tail = []) as ->.
    { subst tail. destruct (result (extract_text rt file)) as [[t|r]|e];
        try reflexivity. now destruct (N t). }
    rewrite C. cbn [app]. split.
    + exists []. split; [now left | right; now left].
    + intros [X | X]; congruence.
  - rewrite C. split.
    + exists tail. split; [exact T | right; now right].
    + intros [X | X]; congruence.
Qed.

Lemma external_calls_are_ordered_witness :
  OCR_AVAILABLE (replying GLUCOSE_REPLY false) = false
  /\ forall ev,
       In ev (calls (analyze_file (replying GLUCOSE_REPLY false)
                       (upload "scan.png" (Some "image/png"%string) "PNG"))) ->
       exists p, ev = GenerateContent p.
Proof.
  split; [reflexivity|].
  apply (proj2 (@external_calls_are_ordered (replying GLUCOSE_REPLY false)
                  (upload "scan.png" (Some "image/png"%string) "PNG"))).
  now right.
Defined.

(** *** Responses *)

Lemma extract_text_returns (rt : Runtime) (file : UploadFile) :
  raises_only_Exceptions rt ->
  exists r, result (extract_text rt file) = Ret r.
Proof.
  intros [_ [_ [IO IS]]]. unfold extract_text. cbv zeta.
  destruct (is_text_file _ _ _).
  { destruct (bytes_decode_replace_total (body file)) as [s ->].
    now eexists. }
  destruct (is_image_file _ _ _).
  { destruct (OCR_AVAILABLE rt); [|now eexists].
    rewrite run_ocr_cases.
    destruct (Image_open rt (body file)) as [img|e] eqn:O.
    - destruct (image_to_string rt img) as [t|e] eqn:S; [now eexists|].
      simpl. rewrite (IS _ _ S). now eexists.
    - simpl. rewrite (IO _ _ O). now eexists. }
  destruct (is_pdf_file _ _); now eexists.
Qed.

(** X11: /analyze-file never fails when the external calls raise
    Exceptions only: for every upload the handler returns a response. *)
Theorem analyze_file_always_answers (rt : Runtime) (file : UploadFile) :
  raises_only_Exceptions rt ->
  exists response, result (analyze_file rt file) = Ret response.
Proof.
  intros W. destruct (extract_text_returns file W) as [[t|r] E].
  - rewrite (proj1 (analyze_file_reaches rt file E)).
    destruct (blank t) eqn:B.
    + rewrite (analyze_extracted_blank rt t B). now eexists.
    + destruct (@ask_gemini_returns rt (report_prompt t) None W)
        as [reply R].
      rewrite (@analyze_extracted_reply rt t reply B R). now eexists.
  - rewrite (proj2 (extract_text_inr rt file E)). now eexists.
Qed.

Lemma analyze_file_always_answers_witness :
  exists response,
    result (analyze_file
              (with_ocr (Raise UnidentifiedImageError) (Ret []))
              (upload "scan.png" None "not an image"))
    = Ret response.
Proof.
  apply (@analyze_file_always_answers
           (with_ocr (Raise UnidentifiedImageError) (Ret []))
           (upload "scan.png" None "not an image")).
  repeat split; simpl; intros; try discriminate;
    repeat match goal with
           | H : Ret _ = Ret _ |- _ => injection H as <-
           | H : Raise _ = Raise _ |- _ => injection H as <-
           end; try discriminate; reflexivity.
Defined.

(** X12: the responses of /analyze-file.  Whatever the upload and the
    behaviour of the external calls, a response is one of the five fixed
    error responses, or a dict with exactly the two keys metrics and
    diagnosis, in that order. *)
Theorem analyze_file_response_shapes
    (rt : Runtime) (file : UploadFile) (response : pyval) :
  result (analyze_file rt file) = Ret response ->
  In response FIXED_ERRORS
  \/ exists metrics diagnosis,
       response = PDict [(py "metrics", metrics);
                         (py "diagnosis", diagnosis)].
Proof.
  unfold analyze_file. cbv zeta.
  assert (T : forall t, result (analyze_extracted rt t) = Ret response ->
              In response FIXED_ERRORS
              \/ exists metrics diagnosis,
                   response = PDict [(py "metrics", metrics);
                                     (py "diagnosis", diagnosis)]).
  { intros t. destruct (blank t) eqn:B.
    - rewrite (analyze_extracted_blank rt t B). intros [= <-].
      left. simpl. tauto.
    - destruct (result (ask_gemini rt (report_prompt t) None))
        as [reply|e] eqn:R.
      + rewrite (@analyze_extracted_reply rt t reply B R).
        intros [= <-]. right.
        destruct (json_loads (interpreter rt) reply) as [[]|];
          now eexists _, _.
      + rewrite (@analyze_extracted_raises rt t e B R). discriminate. }
  destruct (is_text_file _ _ _).
  { destruct (bytes_decode Replace (body file)) as [s|e]; [|discriminate].
    rewrite bind_lift_ret. apply T. }
  destruct (is_image_file _ _ _).
  { destruct (OCR_AVAILABLE rt);
      [|intros [= <-]; left; simpl; tauto].
    destruct (result (run_ocr rt (body file))) as [[t|r]|e] eqn:O.
    - rewrite (proj1 (bind_returns _ _ O)). apply T.
    - rewrite (proj1 (bind_returns _ _ O)). intros [= <-].
      rewrite run_ocr_cases in O.
      destruct (Image_open rt (body file)) as [img|e]; simpl in O.
      + destruct (image_to_string rt img) as [s|e]; [discriminate|].
        destruct (is_Exception e); [|discriminate].
        injection O as <-. left. simpl. tauto.
      + destruct (is_Exception e); [|discriminate].
        injection O as <-. left. simpl. tauto.
    - rewrite (bind_raises _ _ O). discriminate. }
  destruct (is_pdf_file _ _); intros [= <-]; left; simpl; tauto.
Qed.

Lemma analyze_file_response_shapes_witness :
  In UNSUPPORTED FIXED_ERRORS
  \/ exists metrics diagnosis,
       UNSUPPORTED = PDict [(py "metrics", metrics);
                            (py "diagnosis", diagnosis)].
Proof.
  apply (@analyze_file_response_shapes (replying GLUCOSE_REPLY true)
           (upload "setup.exe" (Some "application/octet-stream"%string) "MZ")
           UNSUPPORTED).
  reflexivity.
Defined.

(** *** File contents *)

(** ASCII bytes decode to themselves, under either handler. *)
Lemma decode_loop_ascii (h : errors) (bs : list byte) :
  ascii_bytes bs = true ->
  decode_loop h Idle bs = Ret (map Byte.to_N bs).
Proof.
  induction bs as [|b r IH]; intros A; [reflexivity|].
  simpl in A. apply andb_prop in A. destruct A as [B A].
  cbn [decode_loop map]. unfold at_start, start_byte. rewrite B.
  now rewrite (IH A).
Qed.

(** X14: an ASCII text upload reaches the model as it is.  When the text
    check accepts an upload whose bytes are all ASCII and not all
    whitespace, the handler makes one external call, to the model, with
    the report prompt built around the characters of the file. *)
Theorem ascii_text_upload_is_sent_verbatim
    (rt : Runtime) (file : UploadFile) :
  is_text_file rt (or_empty (content_type file)) (filename file) = true ->
  ascii_bytes (body file) = true ->
  blank (map Byte.to_N (body file)) = false ->
  calls (analyze_file rt file)
  = [GenerateContent
       (full_prompt (report_prompt (map Byte.to_N (body file))) None)]
  /\ contains (full_prompt (report_prompt (map Byte.to_N (body file))) None)
       (map Byte.to_N (body file)).
Proof.
  intros T A B. split.
  - unfold analyze_file. cbv zeta. rewrite T.
    unfold bytes_decode. rewrite (decode_loop_ascii Replace _ A).
    rewrite bind_lift_ret, analyze_extracted_calls, B. reflexivity.
  - unfold full_prompt, report_prompt.
    do 8 apply contains_app_r. apply contains_here.
Qed.

Lemma ascii_text_upload_is_sent_verbatim_witness :
  calls (analyze_file (replying GLUCOSE_REPLY true)
           (upload "lab.txt" None "glucose 95"))
  = [GenerateContent (full_prompt (report_prompt (py "glucose 95")) None)].
Proof.
  apply (proj1 (@ascii_text_upload_is_sent_verbatim
                  (replying GLUCOSE_REPLY true)
                  (upload "lab.txt" None "glucose 95")
                  eq_refl eq_refl eq_refl)).
Defined.

(** X15: /analyze sends the symptom trimmed and otherwise untouched.  For
    a symptom that is not blank, the one model call carries the symptom
    prompt built around the submitted text without its blank prefix and
    its blank suffix; what is sent is not empty and neither starts nor
    ends with whitespace. *)
Theorem analyze_text_sends_trimmed_symptom
    (rt : Runtime) (req : AnalyzeRequest) :
  blank (symptom req) = false ->
  exists sent before after,
    symptom req = before ++ sent ++ after
    /\ blank before = true /\ blank after = true
    /\ sent <> [] /\ trimmed sent
    /\ calls (analyze_text rt req)
       = [GenerateContent (full_prompt (symptom_prompt sent) None)].
Proof.
  intros B.
  destruct (strip_spec (symptom req)) as [before [after [E [Bb Ba]]]].
  exists (strip (symptom req)), before, after.
  repeat split; try assumption; try apply strip_trimmed.
  - intros N. apply strip_nil_iff in N. congruence.
  - unfold analyze_text. rewrite truthy_strip, B. cbn [negb].
    pose proof (ask_gemini_calls rt
                  (symptom_prompt (strip (symptom req))) None) as C.
    destruct (ask_gemini rt _ None) as [[a|e] tr]; simpl in C; subst tr;
      reflexivity.
Qed.

Lemma analyze_text_sends_trimmed_symptom_witness :
  exists sent before after,
    py "  sore  throat " = before ++ sent ++ after
    /\ blank before = true /\ blank after = true
    /\ sent <> [] /\ trimmed sent
    /\ calls (analyze_text (replying (py "Rest.") true)
                {| symptom := py "  sore  throat " |})
       = [GenerateContent (full_prompt (symptom_prompt sent) None)].
Proof.
  apply (@analyze_text_sends_trimmed_symptom (replying (py "Rest.") true)
           {| symptom := py "  sore  throat " |}).
  reflexivity.
Defined.

(** X17: what is not an Exception is not swallowed.  When the external
    call raises an exception outside the Exception hierarchy (a
    KeyboardInterrupt, a SystemExit), both routes let it through to
    their caller after the one model call: /analyze on every symptom that
    is not blank, /analyze-file on every request that reached the model
    call. *)
Theorem interrupts_pass_through_the_routes (rt : Runtime) (e : exn) :
  is_Exception e = false ->
  (forall req,
      blank (symptom req) = false ->
      external_failure rt
        (full_prompt (symptom_prompt (strip (symptom req))) None) = Some e ->
      result (analyze_text rt req) = Raise e)
  /\ (forall file t,
         result (extract_text rt file) = Ret (inl t) ->
         blank t = false ->
         external_failure rt (full_prompt (report_prompt t) None) = Some e ->
         result (analyze_file rt file) = Raise e).
Proof.
  intros X.
  assert (A : forall prompt,
             external_failure rt (full_prompt prompt None) = Some e ->
             result (ask_gemini rt prompt None) = Raise e).
  { intros prompt F. rewrite ask_gemini_cases. cbv zeta.
    unfold result, fst. unfold external_failure in F.
    destruct (generate_content rt _) as [response|e0].
    - destruct (text response) as [[s|]|e0]; try discriminate.
      injection F as ->. now rewrite X.
    - injection F as ->. now rewrite X. }
  split.
  - intros req B F. unfold analyze_text. rewrite truthy_strip, B.
    cbn [negb]. now rewrite (bind_raises _ _ (A _ F)).
  - intros file t E B F.
    rewrite (proj1 (analyze_file_reaches rt file E)).
    now rewrite (@analyze_extracted_raises rt t e B (A _ F)).
Qed.

Lemma interrupts_pass_through_the_routes_witness :
  result (analyze_text (failing KeyboardInterrupt)
            {| symptom := py "headache" |})
  = Raise KeyboardInterrupt
  /\ result (analyze_file (failing KeyboardInterrupt)
               (upload "lab.txt" None "glucose 95"))
     = Raise KeyboardInterrupt.
Proof.
  split.
  - apply (proj1 (@interrupts_pass_through_the_routes
                    (failing KeyboardInterrupt) KeyboardInterrupt eq_refl)
             {| symptom := py "headache" |}); reflexivity.
  - apply (proj2 (@interrupts_pass_through_the_routes
                    (failing KeyboardInterrupt) KeyboardInterrupt eq_refl)
             (upload "lab.txt" None "glucose 95") (py "glucose 95"));
      reflexivity.
Defined.
